(** * Cart and favourites state manager of [main.js]

    A shallow embedding of the state-handling part of [src/main.js]: the two
    collections [cart] and [favorites], the functions [addItemToCart],
    [updateItemQuantity], [toggleFavorite], the total computed by
    [renderSubtotal], and the two reads of [localStorage] that initialise the
    collections.

    Conventions of the embedding.
    - A JavaScript string is the list of its UTF-16 code units ([list N]);
      [===] on strings is equality of these lists.
    - A JavaScript number is an IEEE 754 binary64 value, Rocq's primitive
      [float]: [+], [*] and [<=] are the kernel's operations, and [nan]
      behaves as NaN does.
    - An array is a [list]; [find]/[findIndex] are stdpp's [list_find],
      an in-place update of an element is [<[i:=x]>], [splice(i, 1)] is
      [delete i], [filter] and [push] are [filter] and [++ [x]].
    - A function that mutates the closure variables [cart] and [favorites]
      takes a [State] and returns the value of the call with the new state.
    - The DOM writes of [updateCart] and [updateFavorites] (rendering,
      counters) and their [localStorage.setItem] do not read back into the
      collections; they are left out of [State]. *)

From Stdlib Require Import Floats ZArith NArith Ascii String DecimalN.
From Stdlib Require QArith.
From stdpp Require Import base decidable option list gmap.

Set Default Proof Using "Type".
Local Open Scope N_scope.

(** ** Strings *)

Abbreviation jsstring := (list N).

(** An ASCII literal as a JavaScript string. *)
Definition js (s : string) : jsstring :=
  N_of_ascii <$> list_ascii_of_string s.

(** The code units matched by the regular expression class [\s]:
    WhiteSpace and LineTerminator of ECMAScript. *)
Definition is_whitespace (c : N) : bool :=
  (c =? 0x09) || (c =? 0x0A) || (c =? 0x0B) || (c =? 0x0C) || (c =? 0x0D)
  || (c =? 0x20) || (c =? 0xA0) || (c =? 0x1680)
  || ((0x2000 <=? c) && (c <=? 0x200A))
  || (c =? 0x2028) || (c =? 0x2029) || (c =? 0x202F) || (c =? 0x205F)
  || (c =? 0x3000) || (c =? 0xFEFF).

(** The separator ["-"]. *)
Definition hyphen : N := 0x2D.

(** [s.replace(/\s/g, '-')]. *)
Definition replace_whitespace (s : jsstring) : jsstring :=
  (λ c, if is_whitespace c then hyphen else c) <$> s.

(** ** Values *)

(** The values that [JSON.parse] can return, with [undefined] for the result
    of a call that returns nothing. An object keeps its members in source
    order. *)
#[local] Unset Elimination Schemes.
Inductive JSValue : Type :=
  | JUndefined
  | JNull
  | JBool (b : bool)
  | JNum (x : float)
  | JStr (s : jsstring)
  | JArr (elements : list JSValue)
  | JObj (members : list (jsstring * JSValue)).
#[local] Set Elimination Schemes.

(** ToBoolean. *)
Definition truthy (v : JSValue) : bool :=
  match v with
  | JUndefined | JNull => false
  | JBool b => b
  | JNum x => negb (PrimFloat.is_zero x || PrimFloat.is_nan x)
  | JStr s => negb (bool_decide (s = []))
  | JArr _ | JObj _ => true
  end.

(** ** JSON texts *)

Module JSON.
(** The grammar of JSON texts as [JSON.parse] reads them. A text is
    scanned one code unit at a time into tokens, and the tokens drive a
    stack automaton; both passes are structural, so [value] is total. *)

(** *** Numbers *)

(** The mathematical value [(-1)^neg * m * 10^e] rounded to binary64,
    to nearest, ties to even. *)
Definition decimal_to_float (neg : bool) (m : N) (e : Z) : float :=
  match m with
  | N0 => if neg then PrimFloat.neg_zero else PrimFloat.zero
  | Npos p =>
      SF2Prim
        (match e with
         | Zneg k =>
             SFdiv prec emax (S754_finite neg p 0)
                   (S754_finite false (10 ^ k) 0)
         | _ =>
             SFdiv prec emax (S754_finite neg (p * Z.to_pos (10 ^ e)) 0)
                   (S754_finite false 1 0)
         end)
  end.

Definition digit (c : N) : option N :=
  if (0x30 <=? c) && (c <=? 0x39) then Some (c - 0x30) else None.

(** The longest run of decimal digits at the head of [s], read after the
    digits [acc]; [n] counts the digits read. *)
Fixpoint digits (acc : N) (n : N) (s : list N) : N * N * list N :=
  match s with
  | c :: s' =>
      match digit c with
      | Some d => digits (10 * acc + d) (n + 1) s'
      | None => (acc, n, s)
      end
  | [] => (acc, n, s)
  end.

(** [-? (0 | [1-9][0-9]* ) (. [0-9]+)? ([eE] [+-]? [0-9]+)?], the whole
    of [w]. *)
Definition number (w : list N) : option float :=
  let '(neg, w1) :=
    match w with 0x2D :: r => (true, r) | _ => (false, w) end in
  '(int, w2) ←
    match w1 with
    | 0x30 :: r => Some (0, r)
    | c :: r =>
        d ← digit c;
        let '(i, _, r') := digits d 1 r in Some (i, r')
    | [] => None
    end;
  '(m, fraclen, w3) ←
    match w2 with
    | 0x2E :: r =>
        let '(m, n, r') := digits int 0 r in
        if n =? 0 then None else Some (m, n, r')
    | _ => Some (int, 0, w2)
    end;
  '(exp, w4) ←
    match w3 with
    | 0x65 :: r | 0x45 :: r =>
        let '(eneg, r1) :=
          match r with
          | 0x2D :: r1 => (true, r1)
          | 0x2B :: r1 => (false, r1)
          | _ => (false, r)
          end in
        let '(x, n, r2) := digits 0 0 r1 in
        if n =? 0 then None
        else Some (if eneg then (- Z.of_N x)%Z else Z.of_N x, r2)
    | _ => Some (0%Z, w3)
    end;
  match w4 with
  | [] => Some (decimal_to_float neg m (exp - Z.of_N fraclen))
  | _ => None
  end.

(** *** Tokens *)

Inductive token : Type :=
  | TLBrace | TRBrace | TLBracket | TRBracket | TComma | TColon
  | TValue (v : JSValue).

(** JSON white space: tab, line feed, carriage return, space. *)
Definition is_ws (c : N) : bool :=
  (c =? 0x09) || (c =? 0x0A) || (c =? 0x0D) || (c =? 0x20).

Definition punctuator (c : N) : option token :=
  match c with
  | 0x7B => Some TLBrace
  | 0x7D => Some TRBrace
  | 0x5B => Some TLBracket
  | 0x5D => Some TRBracket
  | 0x2C => Some TComma
  | 0x3A => Some TColon
  | _ => None
  end.

Definition hexdigit (c : N) : option N :=
  if (0x30 <=? c) && (c <=? 0x39) then Some (c - 0x30)
  else if (0x41 <=? c) && (c <=? 0x46) then Some (c - 0x41 + 10)
  else if (0x61 <=? c) && (c <=? 0x66) then Some (c - 0x61 + 10)
  else None.

(** The character after a backslash, other than [u]. *)
Definition escape (c : N) : option N :=
  match c with
  | 0x22 => Some 0x22
  | 0x5C => Some 0x5C
  | 0x2F => Some 0x2F
  | 0x62 => Some 0x08
  | 0x66 => Some 0x0C
  | 0x6E => Some 0x0A
  | 0x72 => Some 0x0D
  | 0x74 => Some 0x09
  | _ => None
  end.

(** A run of characters that is neither white space, a punctuator nor a
    quote is one of the three literals or a number. *)
Definition word (w : list N) : option JSValue :=
  if bool_decide (w = js "null") then Some JNull
  else if bool_decide (w = js "true") then Some (JBool true)
  else if bool_decide (w = js "false") then Some (JBool false)
  else JNum <$> number w.

(** Where the scanner is: between tokens, inside a word, inside a string,
    after a backslash, or inside the four digits of a [\u] escape. The
    characters read so far are kept in reverse. *)
Inductive lex_state : Type :=
  | LIdle
  | LWord (w : list N)
  | LString (acc : list N)
  | LEscape (acc : list N)
  | LUnicode (acc : list N) (hex : list N).

(** The tokens of [s], scanned from state [st]; [None] when [s] is not a
    sequence of JSON tokens. *)
Fixpoint lex (st : lex_state) (s : list N) : option (list token) :=
  match s with
  | [] =>
      match st with
      | LIdle => Some []
      | LWord w => v ← word (reverse w); Some [TValue v]
      | _ => None
      end
  | c :: s' =>
      match st with
      | LIdle =>
          if is_ws c then lex LIdle s'
          else match punctuator c with
               | Some t => (t ::.) <$> lex LIdle s'
               | None =>
                   if c =? 0x22 then lex (LString []) s'
                   else lex (LWord [c]) s'
               end
      | LWord w =>
          if is_ws c then
            v ← word (reverse w); (TValue v ::.) <$> lex LIdle s'
          else match punctuator c with
               | Some t =>
                   v ← word (reverse w);
                   (λ ts, TValue v :: t :: ts) <$> lex LIdle s'
               | None =>
                   if c =? 0x22 then
                     v ← word (reverse w);
                     (TValue v ::.) <$> lex (LString []) s'
                   else lex (LWord (c :: w)) s'
               end
      | LString acc =>
          if c =? 0x22 then (TValue (JStr (reverse acc)) ::.) <$> lex LIdle s'
          else if c =? 0x5C then lex (LEscape acc) s'
          else if c <? 0x20 then None
          else lex (LString (c :: acc)) s'
      | LEscape acc =>
          if c =? 0x75 then lex (LUnicode acc []) s'
          else match escape c with
               | Some e => lex (LString (e :: acc)) s'
               | None => None
               end
      | LUnicode acc hex =>
          match hexdigit c with
          | Some d =>
              match hex with
              | [d1; d2; d3] =>
                  lex (LString (((d1 * 16 + d2) * 16 + d3) * 16 + d :: acc)) s'
              | _ => lex (LUnicode acc (hex ++ [d])) s'
              end
          | None => None
          end
      end
  end.

(** *** Grammar *)

(** An enclosing array or object whose next element is being read. *)
Inductive frame : Type :=
  | InArr (acc : list JSValue)
  | InObj (acc : list (jsstring * JSValue)) (key : jsstring).

(** What may come next: a value (or the bracket that closes an empty
    array), a member name (or the brace that closes an empty object), the
    colon after a name, or what follows a complete value. *)
Inductive mode : Type :=
  | MValue (first : bool)
  | MKey (first : bool) (acc : list (jsstring * JSValue))
  | MColon (acc : list (jsstring * JSValue)) (key : jsstring)
  | MAfter (v : JSValue).

Definition step (m : mode) (stack : list frame) (t : token)
    : option (mode * list frame) :=
  match m, t with
  | MValue _, TValue v => Some (MAfter v, stack)
  | MValue _, TLBracket => Some (MValue true, InArr [] :: stack)
  | MValue _, TLBrace => Some (MKey true [], stack)
  | MValue true, TRBracket =>
      match stack with
      | InArr _ :: stack' => Some (MAfter (JArr []), stack')
      | _ => None
      end
  | MKey _ acc, TValue (JStr k) => Some (MColon acc k, stack)
  | MKey true _, TRBrace => Some (MAfter (JObj []), stack)
  | MColon acc k, TColon => Some (MValue false, InObj acc k :: stack)
  | MAfter v, TComma =>
      match stack with
      | InArr acc :: stack' => Some (MValue false, InArr (acc ++ [v]) :: stack')
      | InObj acc k :: stack' => Some (MKey false (acc ++ [(k, v)]), stack')
      | [] => None
      end
  | MAfter v, TRBracket =>
      match stack with
      | InArr acc :: stack' => Some (MAfter (JArr (acc ++ [v])), stack')
      | _ => None
      end
  | MAfter v, TRBrace =>
      match stack with
      | InObj acc k :: stack' => Some (MAfter (JObj (acc ++ [(k, v)])), stack')
      | _ => None
      end
  | _, _ => None
  end.

Fixpoint run (m : mode) (stack : list frame) (ts : list token)
    : option JSValue :=
  match ts with
  | [] =>
      match m, stack with
      | MAfter v, [] => Some v
      | _, _ => None
      end
  | t :: ts' => '(m', stack') ← step m stack t; run m' stack' ts'
  end.

(** The value of a JSON text, [None] when the text is not JSON. *)
Definition value (text : jsstring) : option JSValue :=
  ts ← lex LIdle text; run (MValue false) [] ts.
End JSON.

(** ** Reading the store *)

Inductive Error : Type := SyntaxError.

(** A call either returns a value or throws. *)
Inductive outcome (A : Type) : Type :=
  | Returns (a : A)
  | Throws (e : Error).
Arguments Returns {A} a.
Arguments Throws {A} e.

Definition bind {A B : Type} (x : outcome A) (k : A → outcome B) : outcome B :=
  match x with
  | Returns a => k a
  | Throws e => Throws e
  end.

Notation "x ←! y ; z" := (bind y (λ x, z))
  (at level 20, y at level 100, z at level 200, only parsing).

(** [JSON.parse(text)]: the value of the text, or a [SyntaxError]. *)
Definition JSON_parse (text : jsstring) : outcome JSValue :=
  match JSON.value text with
  | Some v => Returns v
  | None => Throws SyntaxError
  end.

(** [localStorage]: a map from keys to stored strings. *)
Abbreviation Storage := (gmap (list N) (list N)).

(** [JSON.parse(localStorage.getItem(key)) || []]. [getItem] gives [null]
    for a key that is not stored, and [JSON.parse] reads its argument
    converted to a string, ["null"]. *)
Definition load (localStorage : Storage) (key : jsstring) : outcome JSValue :=
  let text :=
    match localStorage !! key with
    | Some stored => stored
    | None => js "null"
    end in
  v ←! JSON_parse text;
  Returns (if truthy v then v else JArr []).

(** The two declarations at the top of the [DOMContentLoaded] handler:
    [cart] from ["shoppingCart"], then [favorites] from ["favorites"]. *)
Definition init (localStorage : Storage) : outcome (JSValue * JSValue) :=
  cart ←! load localStorage (js "shoppingCart");
  favorites ←! load localStorage (js "favorites");
  Returns (cart, favorites).

(** ** Data model *)

Module CartItem.
(** [{ id, name, price, image, quantity, variant }]; [variant] is [null]
    ([None]) or a string. *)
Record t : Type := mk {
  id : jsstring;
  name : jsstring;
  price : float;
  image : jsstring;
  quantity : float;
  variant : option jsstring
}.

(** Assignment to the [quantity] field. *)
Definition set_quantity (q : float) (item : t) : t :=
  mk (id item) (name item) (price item) (image item) q (variant item).
End CartItem.

Module FavoriteItem.
(** [{ id, name, price, image }]. *)
Record t : Type := mk {
  id : jsstring;
  name : jsstring;
  price : float;
  image : jsstring
}.
End FavoriteItem.

(** The closure variables [cart] and [favorites]. *)
Record State : Type := mkState {
  cart : list CartItem.t;
  favorites : list FavoriteItem.t
}.

Definition set_cart (c : list CartItem.t) (st : State) : State :=
  mkState c (favorites st).

Definition set_favorites (f : list FavoriteItem.t) (st : State) : State :=
  mkState (cart st) f.

(** Both collections empty. *)
Definition empty_state : State := mkState [] [].

(** ** Cart *)

(** [updateCart()]: renders, recomputes the counters and stores the cart;
    the collections are not changed and nothing is returned. *)
Definition updateCart (st : State) : JSValue * State := (JUndefined, st).

(** [variant ? `${id}-${variant.replace(/\s/g, '-')}` : id]: the key of a
    cart entry. The condition is the truthiness of [variant]: [null] and
    the empty string are both falsy. *)
Definition cartItemId (id : jsstring) (variant : option jsstring) : jsstring :=
  match variant with
  | None => id
  | Some v =>
      if truthy (JStr v) then id ++ [hyphen] ++ replace_whitespace v else id
  end.

(** [addItemToCart(id, name, price, image, variant = null)]. *)
Definition addItemToCart (id name : jsstring) (price : float)
    (image : jsstring) (variant : option jsstring) (st : State)
    : JSValue * State :=
  let cartItemId := cartItemId id variant in
  match list_find (λ item, CartItem.id item = cartItemId) (cart st) with
  | Some (i, existingItem) =>
      let existingItem' :=
        CartItem.set_quantity (CartItem.quantity existingItem + 1)%float
                              existingItem in
      updateCart (set_cart (<[i := existingItem']> (cart st)) st)
  | None =>
      updateCart
        (set_cart
           (cart st ++ [CartItem.mk cartItemId name price image 1%float variant])
           st)
  end.

(** [updateItemQuantity(id, change)]. The early [return] skips
    [updateCart()]. *)
Definition updateItemQuantity (id : jsstring) (change : float) (st : State)
    : JSValue * State :=
  match list_find (λ item, CartItem.id item = id) (cart st) with
  | None => (JUndefined, st)
  | Some (i, item) =>
      let item' :=
        CartItem.set_quantity (CartItem.quantity item + change)%float item in
      let cart1 := <[i := item']> (cart st) in
      let cart2 :=
        if (CartItem.quantity item' <=? 0)%float
        then filter (λ cartItem, CartItem.id cartItem ≠ id) cart1
        else cart1 in
      updateCart (set_cart cart2 st)
  end.

(** The number [total] that [renderSubtotal] formats:
    [cart.reduce((sum, item) => sum + (item.price * item.quantity), 0)]. *)
Definition renderSubtotal_total (cart : list CartItem.t) : float :=
  fold_left
    (λ sum item, (sum + CartItem.price item * CartItem.quantity item)%float)
    cart 0%float.

(** The number [totalItems] of [updateCartIconCount]. *)
Definition updateCartIconCount_totalItems (cart : list CartItem.t) : float :=
  fold_left (λ sum item, (sum + CartItem.quantity item)%float) cart 0%float.

(** ** Favourites *)

(** [updateFavorites()]: icon states, counter and storage; the collections
    are not changed and nothing is returned. *)
Definition updateFavorites (st : State) : JSValue * State := (JUndefined, st).

(** [toggleFavorite(id, name, price, image)]: [findIndex] gives the first
    index with that id, [splice] deletes that one element. The function has
    no [return] statement. *)
Definition toggleFavorite (id name : jsstring) (price : float)
    (image : jsstring) (st : State) : JSValue * State :=
  match list_find (λ item, FavoriteItem.id item = id) (favorites st) with
  | Some (existingIndex, _) =>
      updateFavorites (set_favorites (delete existingIndex (favorites st)) st)
  | None =>
      updateFavorites
        (set_favorites
           (favorites st ++ [FavoriteItem.mk id name price image]) st)
  end.

(** [favorites.some(item => item.id === productId)], the test of
    [updateFavoriteIconState]. *)
Definition isFavorited (productId : jsstring) (st : State) : bool :=
  bool_decide (Exists (λ item, FavoriteItem.id item = productId) (favorites st)).

(** The keys of the entries of the cart, in order. *)
Abbreviation cart_ids st := (CartItem.id <$> cart st).

(** ** Sequences of calls *)

(** The arguments of one call of [addItemToCart]. *)
Record AddItemCall : Type := mkAddItemCall {
  call_id : jsstring;
  call_name : jsstring;
  call_price : float;
  call_image : jsstring;
  call_variant : option jsstring
}.

(** The key that a call works on. *)
Definition call_key (c : AddItemCall) : jsstring :=
  cartItemId (call_id c) (call_variant c).

(** The state after the calls of [calls], made in order from [st]. *)
Definition addItems (calls : list AddItemCall) (st : State) : State :=
  foldl
    (λ st c,
       (addItemToCart (call_id c) (call_name c) (call_price c) (call_image c)
                      (call_variant c) st).2)
    st calls.

(** The state after the calls [updateItemQuantity(id, change)] of [calls],
    made in order from [st]. *)
Definition updateQuantities (calls : list (jsstring * float)) (st : State)
    : State :=
  foldl (λ st c, (updateItemQuantity c.1 c.2 st).2) st calls.

(** ** The subtotal of the specification *)

(** The exact value of a finite number, a rational; none for NaN and the
    infinities. *)
Definition exact_value (x : float) : option QArith_base.Q :=
  match Prim2SF x with
  | S754_zero _ => Some (QArith_base.inject_Z 0)
  | S754_finite s m e =>
      Some (QArith_base.Qmult
              (QArith_base.inject_Z (if s then Z.neg m else Z.pos m))
              (QArith_base.Qpower (QArith_base.inject_Z 2) e))
  | _ => None
  end.

(** The exact sum of [price * quantity] over the entries, in rationals:
    no product and no partial sum is rounded. *)
Fixpoint exact_subtotal (cart : list CartItem.t) : option QArith_base.Q :=
  match cart with
  | [] => Some (QArith_base.inject_Z 0)
  | item :: cart' =>
      price ← exact_value (CartItem.price item);
      quantity ← exact_value (CartItem.quantity item);
      rest ← exact_subtotal cart';
      Some (QArith_base.Qplus (QArith_base.Qmult price quantity) rest)
  end.

(** ** Amounts *)

(** The code units of a decimal numeral. *)
Fixpoint uint_units (d : Decimal.uint) : jsstring :=
  match d with
  | Decimal.Nil => []
  | Decimal.D0 d => 0x30 :: uint_units d
  | Decimal.D1 d => 0x31 :: uint_units d
  | Decimal.D2 d => 0x32 :: uint_units d
  | Decimal.D3 d => 0x33 :: uint_units d
  | Decimal.D4 d => 0x34 :: uint_units d
  | Decimal.D5 d => 0x35 :: uint_units d
  | Decimal.D6 d => 0x36 :: uint_units d
  | Decimal.D7 d => 0x37 :: uint_units d
  | Decimal.D8 d => 0x38 :: uint_units d
  | Decimal.D9 d => 0x39 :: uint_units d
  end.

(** The decimal digits of a natural number, ["0"] for 0. *)
Definition decimal (n : N) : jsstring := uint_units (N.to_uint n).

(** The exact value of a finite non-negative number, an integer times a
    power of two; 0 is [(0, 0)]. *)
Definition magnitude (x : float) : N * Z :=
  match Prim2SF x with
  | S754_finite _ m e => (Npos m, e)
  | _ => (0, 0%Z)
  end.

(** The integer [n] for which [n / 10^f - m * 2^e] is as close to zero as
    possible, the larger one of two. *)
Definition scaled_round (f : nat) (m : N) (e : Z) : N :=
  let a := m * 10 ^ N.of_nat f in
  match e with
  | Zneg k => (2 * a + 2 ^ Npos k) / (2 * 2 ^ Npos k)
  | _ => a * 2 ^ Z.to_N e
  end.

Fixpoint strip_zeros_rev (r : list N) : list N :=
  match r with
  | 0x30 :: r' => strip_zeros_rev r'
  | _ => r
  end.

(** The least [k], from [k] up, and an integer [s] of [k] digits (or
    [10^k]) with [s * 10^(n - k)] rounding to [x], where the integer [M] of
    [n] digits is the value of [x]; of two such [s] the closer to [M], the
    even one when both are as close. *)
Fixpoint shortest_digits (fuel : nat) (k : N) (x : float) (M n : N)
    : option (N * N) :=
  match fuel with
  | O => None
  | S fuel' =>
      let scale := 10 ^ (n - k) in
      let lo := M / scale in
      let hi := lo + 1 in
      let ok c :=
        (JSON.decimal_to_float false c (Z.of_N (n - k)) =? x)%float in
      let below := M - lo * scale in
      let above := hi * scale - M in
      if ok lo && ok hi then
        Some (if below <? above then lo
              else if above <? below then hi
              else if N.even lo then lo else hi, k)
      else if ok lo then Some (lo, k)
      else if ok hi then Some (hi, k)
      else shortest_digits fuel' (k + 1) x M n
  end.

(** [Number::toString(x)] for a finite [x] of at least [10^21]: such a
    number is an integer of more than 21 digits and is written with an
    exponent. *)
Definition toString_large (x : float) : jsstring :=
  let '(m, e) := magnitude x in
  let M := m * 2 ^ Z.to_N e in
  let n := N.of_nat (length (decimal M)) in
  let '(s, k) := default (M, n) (shortest_digits 17 1 x M n) in
  let digits := decimal s in
  let point := n - k + N.of_nat (length digits) in
  match reverse (strip_zeros_rev (reverse digits)) with
  | [] => []
  | [d] => d :: js "e+" ++ decimal (point - 1)
  | d :: ds => d :: 0x2E :: ds ++ js "e+" ++ decimal (point - 1)
  end.

(** [x.toFixed(f)]: a number that is not finite is written by name; the
    sign is taken off; from [10^21] on the number is written as
    [toString] does; below, the digits of the rounded [x * 10^f] are
    padded with zeros to [f + 1] digits and the point is put before the
    last [f]. *)
Definition toFixed (f : nat) (x : float) : jsstring :=
  if PrimFloat.is_nan x then js "NaN"
  else if PrimFloat.is_infinity x then
    if (x <? 0)%float then js "-Infinity" else js "Infinity"
  else
    let s := if (x <? 0)%float then js "-" else [] in
    let x := PrimFloat.abs x in
    if (1e21 <=? x)%float then s ++ toString_large x
    else
      let '(m, e) := magnitude x in
      let n := scaled_round f m e in
      let m := decimal n in
      match f with
      | O => s ++ m
      | _ =>
          let m := replicate (S f - length m) 0x30 ++ m in
          let k := length m in
          s ++ take (k - f) m ++ [0x2E] ++ drop (k - f) m
      end.

(** [s.replace(c, c')] for one-character strings [c] and [c']: the first
    [c] is replaced. *)
Fixpoint replace_first (c c' : N) (s : jsstring) : jsstring :=
  match s with
  | [] => []
  | x :: r => if x =? c then c' :: r else x :: replace_first c c' r
  end.

(** [renderSubtotal()]: nothing without the [cartTotal] element, else its
    new [textContent],
    [`R$ ${total.toFixed(2).replace('.', ',')}`]. *)
Definition renderSubtotal (cartTotal : option jsstring)
    (cart : list CartItem.t) : option jsstring :=
  match cartTotal with
  | None => None
  | Some _ =>
      Some (js "R$ "
            ++ replace_first 0x2E 0x2C (toFixed 2 (renderSubtotal_total cart)))
  end.

(** A decimal digit. *)
Definition is_digit (c : N) : Prop := 0x30 ≤ c ∧ c ≤ 0x39.

(** ** The favourites counter *)

(** What the script sets on a counter element: [textContent] and
    [style.display]. *)
Record Counter : Type := mkCounter {
  textContent : jsstring;
  display : jsstring
}.

(** [updateFavoritesCount()]: nothing without the [favoritesCount]
    element; else the text is the length of [favorites] and the element is
    displayed when the length is above 0. *)
Definition updateFavoritesCount (favoritesCount : option Counter) (st : State)
    : option Counter :=
  match favoritesCount with
  | None => None
  | Some _ =>
      let totalFavorites := length (favorites st) in
      Some (mkCounter (decimal (N.of_nat totalFavorites))
                      (if bool_decide (0 < totalFavorites)%nat
                       then js "block" else js "none"))
  end.

(** ** Class lists *)

Module classList.
(** An element's [classList] is the list of its class tokens, in order.
    [contains], [add], [remove] and [toggle] are the methods of that name;
    [add] and [toggle] append a token that is not there, [remove] deletes
    the token, and [toggle] deletes it when it is there. *)
Definition contains (token : jsstring) (tokens : list jsstring) : bool :=
  bool_decide (token ∈ tokens).

Definition add (token : jsstring) (tokens : list jsstring) : list jsstring :=
  if contains token tokens then tokens else tokens ++ [token].

Definition remove (token : jsstring) (tokens : list jsstring) : list jsstring :=
  filter (λ t, t ≠ token) tokens.

Definition toggle (token : jsstring) (tokens : list jsstring) : list jsstring :=
  if contains token tokens then remove token tokens else tokens ++ [token].
End classList.

(** The class list of a node in a map from nodes to class lists; a node
    without entry has no class. *)
Definition classes_of (classes : gmap nat (list jsstring)) (node : nat)
    : list jsstring :=
  default [] (classes !! node).

(** ** The cart modal *)

(** The elements [cartModalOverlay] and [cartModal]: [None] when
    [getElementById] found none, else the class list of the element. *)
Record ModalView : Type := mkModalView {
  cartModalOverlay : option (list jsstring);
  cartModal : option (list jsstring)
}.

(** [toggleCartModal()]: nothing when one of the two elements is missing;
    else the cart is refreshed when the overlay is not active, and
    [active] is toggled on both elements. *)
Definition toggleCartModal (view : ModalView) (st : State)
    : JSValue * (ModalView * State) :=
  match cartModalOverlay view, cartModal view with
  | Some overlay, Some modal =>
      let isActive := classList.contains (js "active") overlay in
      let st1 := if isActive then st else (updateCart st).2 in
      (JUndefined,
       (mkModalView (Some (classList.toggle (js "active") overlay))
                    (Some (classList.toggle (js "active") modal)),
        st1))
  | _, _ => (JUndefined, (view, st))
  end.

(** ** Favourite icons *)

(** What [updateFavoriteIconState] writes: the class list of each icon and
    the [style.color] of each icon container, by node. *)
Record IconView : Type := mkIconView {
  icon_classes : gmap nat (list jsstring);
  container_color : gmap nat jsstring
}.

(** An element matched by
    ['.product-card[data-id], .product-details[data-id]']: its [dataset.id]
    and the result of [querySelector('.favorite-icon, #favorite-icon')] on
    it, a container node with the result of [querySelector('i')] on that
    container. Two elements may find the same container. *)
Record ProductElement : Type := mkProductElement {
  dataset_id : jsstring;
  iconContainer : option (nat * option nat)
}.

(** The body of the [forEach] of [updateFavoriteIconState]. *)
Definition updateFavoriteIcon (st : State) (view : IconView)
    (element : ProductElement) : IconView :=
  match iconContainer element with
  | None => view
  | Some (container, None) => view
  | Some (container, Some icon) =>
      let classes := classes_of (icon_classes view) icon in
      if isFavorited (dataset_id element) st then
        mkIconView
          (<[icon := classList.add (js "fas")
                       (classList.remove (js "far") classes)]>
             (icon_classes view))
          (<[container := js "var(--primary-color)"]> (container_color view))
      else
        mkIconView
          (<[icon := classList.add (js "far")
                       (classList.remove (js "fas") classes)]>
             (icon_classes view))
          (<[container := js "#ccc"]> (container_color view))
  end.

(** [updateFavoriteIconState()], over the elements that
    [querySelectorAll] lists, in order. *)
Definition updateFavoriteIconState (st : State)
    (productElements : list ProductElement) (view : IconView) : IconView :=
  foldl (updateFavoriteIcon st) view productElements.

(** The icon node of a product element, when it has one. *)
Definition icon_of (element : ProductElement) : option nat :=
  match iconContainer element with
  | Some (_, Some icon) => Some icon
  | _ => None
  end.

(** ** Variant selectors *)

(** The click listener that [initializeVariantSelector] puts on the options
    container. [descendants] are the nodes below the container, [target]
    is [event.target]; the elements that [querySelectorAll('.selected')]
    lists lose [selected], then the target gets it. A target without
    [optionClass] changes nothing. *)
Definition variantSelectorClick (optionClass : jsstring)
    (descendants : list nat) (target : nat)
    (classes : gmap nat (list jsstring)) : gmap nat (list jsstring) :=
  if classList.contains optionClass (classes_of classes target) then
    let selected :=
      filter
        (λ node, classList.contains (js "selected") (classes_of classes node)
                 = true)
        descendants in
    let classes1 :=
      foldl
        (λ m node,
           <[node := classList.remove (js "selected") (classes_of m node)]> m)
        classes selected in
    <[target := classList.add (js "selected") (classes_of classes1 target)]>
      classes1
  else classes.

(** ** The click listener of the page *)

(** The data attributes of a product element: [dataset.id],
    [dataset.name], [parseFloat(dataset.price)] and [dataset.image]. *)
Record ProductData : Type := mkProductData {
  product_id : jsstring;
  product_name : jsstring;
  product_price : float;
  product_image : jsstring
}.

(** What the listener on [document.body] reads of a click: the results of
    its [closest], [querySelector], [getElementById] and [contains] calls.
    An element that is found is [Some]; a [dataset] entry of a found
    element is [None] when the attribute is missing ([undefined]). *)
Record ClickEvent : Type := mkClickEvent {
  (** [e.target.closest('.add-to-cart-btn')] is found *)
  in_add_to_cart_btn : bool;
  (** [e.target.closest('.product-details[data-id]')] *)
  closest_product_details : option ProductData;
  (** [document.querySelector('#size-options .selected, #size-options .active')],
      its [dataset.size] *)
  sizeEl : option (option jsstring);
  (** [document.querySelector('#band-options .active')], its [dataset.band] *)
  bandEl : option (option jsstring);
  (** [e.target.closest('.favorite-icon, #favorite-icon')] is found *)
  in_favorite_icon : bool;
  (** [e.target.closest('.product-card[data-id], .product-details[data-id]')] *)
  closest_product : option ProductData;
  (** [document.getElementById('favorites-container')] is found *)
  favoritesContainer : bool;
  (** [e.target.closest('.favorite-card')], a node *)
  closest_favorite_card : option nat;
  (** [e.target.closest('.cart-item')], its [dataset.id] *)
  closest_cart_item : option (option jsstring);
  (** [e.target.classList.contains('quantity-increase')] *)
  quantity_increase : bool;
  (** [e.target.classList.contains('quantity-decrease')] *)
  quantity_decrease : bool
}.

(** What the listener changes: the collections, the classes of the modal,
    and the favourite cards taken out of the document. *)
Record Page : Type := mkPage {
  page_state : State;
  page_modal : ModalView;
  page_removed : list nat
}.

(** A value inside a template literal: [undefined] reads ["undefined"]. *)
Definition template_value (v : option jsstring) : jsstring :=
  default (js "undefined") v.

(** The variant of an add: [null], then the size when a size is selected,
    then the band when a band is active. *)
Definition selectedVariant (e : ClickEvent) : option jsstring :=
  let variant : option jsstring := None in
  let variant :=
    match sizeEl e with
    | Some size => Some (js "Tamanho: " ++ template_value size)
    | None => variant
    end in
  match bandEl e with
  | Some band => Some (js "Pulseira: " ++ template_value band)
  | None => variant
  end.

(** The first block of the listener, the add to the cart; [None] is its
    [return], which ends the listener. *)
Definition clickAddToCart (e : ClickEvent) (p : Page) : option Page :=
  if in_add_to_cart_btn e then
    match closest_product_details e with
    | None => None
    | Some product =>
        let st1 :=
          (addItemToCart (product_id product) (product_name product)
             (product_price product) (product_image product)
             (selectedVariant e) (page_state p)).2 in
        let opened := (toggleCartModal (page_modal p) st1).2 in
        Some (mkPage opened.2 opened.1 (page_removed p))
    end
  else Some p.

(** The second block, the favourites; on the favourites page the card of
    the click is removed. *)
Definition clickFavorite (e : ClickEvent) (p : Page) : option Page :=
  if in_favorite_icon e then
    match closest_product e with
    | None => None
    | Some product =>
        let st1 :=
          (toggleFavorite (product_id product) (product_name product)
             (product_price product) (product_image product) (page_state p)).2 in
        let removed :=
          if favoritesContainer e then
            match closest_favorite_card e with
            | Some cardToRemove => page_removed p ++ [cardToRemove]
            | None => page_removed p
            end
          else page_removed p in
        Some (mkPage st1 (page_modal p) removed)
    end
  else Some p.

(** [updateItemQuantity(id, change)] with the [dataset.id] of the cart
    item: an [undefined] id equals no string, so nothing is found. *)
Definition updateItemQuantity_dataset (id : option jsstring) (change : float)
    (st : State) : State :=
  match id with
  | Some id => (updateItemQuantity id change st).2
  | None => st
  end.

(** The third block, the quantity buttons of a cart item. *)
Definition clickCartItem (e : ClickEvent) (p : Page) : Page :=
  match closest_cart_item e with
  | Some id =>
      let st1 :=
        if quantity_increase e
        then updateItemQuantity_dataset id 1 (page_state p)
        else page_state p in
      let st2 :=
        if quantity_decrease e
        then updateItemQuantity_dataset id (-1) st1
        else st1 in
      mkPage st2 (page_modal p) (page_removed p)
  | None => p
  end.

(** The click listener of [document.body]. *)
Definition onBodyClick (e : ClickEvent) (p : Page) : Page :=
  match clickAddToCart e p with
  | None => p
  | Some p1 =>
      match clickFavorite e p1 with
      | None => p1
      | Some p2 => clickCartItem e p2
      end
  end.

(** The class list that one step leaves on the icon it writes. *)
Definition icon_tokens (favorited : bool) (tokens : list jsstring)
    : list jsstring :=
  if favorited
  then classList.add (js "fas") (classList.remove (js "far") tokens)
  else classList.add (js "far") (classList.remove (js "fas") tokens).

(** The suffix that the selected options add to the product id. *)
Definition variant_suffix (e : ClickEvent) : jsstring :=
  match bandEl e, sizeEl e with
  | Some band, _ => js "-Pulseira:-" ++ replace_whitespace (template_value band)
  | None, Some size => js "-Tamanho:-" ++ replace_whitespace (template_value size)
  | None, None => []
  end.

(** Both collections have at most one entry per id. *)
Definition unique_ids (st : State) : Prop :=
  NoDup (cart_ids st) ∧ NoDup (FavoriteItem.id <$> favorites st).

(** * Properties *)

Local Close Scope N_scope.

(** ** Reading the store *)

(** A key that is not stored reads as the empty array. *)
Lemma load_missing (localStorage : Storage) (key : jsstring) :
  localStorage !! key = None → load localStorage key = Returns (JArr []).
Proof. intros Hkey. unfold load. rewrite Hkey. reflexivity. Qed.

(** A stored text is handed to [JSON.parse], whose outcome decides. *)
Lemma load_stored (localStorage : Storage) (key stored : jsstring) :
  localStorage !! key = Some stored →
  load localStorage key =
    match JSON.value stored with
    | Some v => Returns (if truthy v then v else JArr [])
    | None => Throws SyntaxError
    end.
Proof.
  intros Hkey. unfold load, JSON_parse. rewrite Hkey.
  destruct (JSON.value stored); reflexivity.
Qed.

(** C1, as stated, fails: with the text [{] stored under [shoppingCart],
    [JSON.parse] throws a [SyntaxError], the read of the cart throws it on,
    and so does the initialisation; no empty sequence is loaded. *)
Lemma load_malformed_throws :
  JSON.value (js "{") = None
  ∧ load {[ js "shoppingCart" := js "{" ]} (js "shoppingCart")
    = Throws SyntaxError
  ∧ load {[ js "shoppingCart" := js "{" ]} (js "shoppingCart")
    ≠ Returns (JArr [])
  ∧ init {[ js "shoppingCart" := js "{" ]} = Throws SyntaxError.
Proof.
  assert (Hload : load {[ js "shoppingCart" := js "{" ]} (js "shoppingCart")
                  = Throws SyntaxError).
  { erewrite load_stored by apply lookup_singleton_eq. reflexivity. }
  split; [reflexivity |]. split; [exact Hload |]. split.
  - rewrite Hload. discriminate.
  - unfold init. rewrite Hload. reflexivity.
Qed.

(** C1, amended: reading a key never throws when the key is missing, and
    then the loaded collection is the empty sequence; a stored text that
    parses to a falsy value (such as [null]) also loads as the empty
    sequence, any other parsed value is loaded as it is; a stored text that
    is not JSON makes the read throw [SyntaxError], which nothing catches.
    With neither key stored the initialisation yields two empty
    sequences. *)
Theorem load_absent_empty_malformed_throws
    (localStorage : Storage) (key : jsstring) :
  (localStorage !! key = None →
     load localStorage key = Returns (JArr []))
  ∧ (∀ stored, localStorage !! key = Some stored →
       JSON.value stored = None →
       load localStorage key = Throws SyntaxError)
  ∧ (∀ stored v, localStorage !! key = Some stored →
       JSON.value stored = Some v →
       load localStorage key = Returns (if truthy v then v else JArr []))
  ∧ (localStorage !! js "shoppingCart" = None →
     localStorage !! js "favorites" = None →
     init localStorage = Returns (JArr [], JArr [])).
Proof.
  split; [apply load_missing |].
  split; [intros stored Hkey Hbad; by rewrite (load_stored _ _ _ Hkey), Hbad |].
  split; [intros stored v Hkey Hv; by rewrite (load_stored _ _ _ Hkey), Hv |].
  intros Hcart Hfav. unfold init.
  rewrite (load_missing _ _ Hcart), (load_missing _ _ Hfav). reflexivity.
Qed.

(** ** The key of a cart entry *)

Lemma replace_whitespace_lookup (s : jsstring) (i : nat) :
  replace_whitespace s !! i
  = (λ c, if is_whitespace c then hyphen else c) <$> s !! i.
Proof. unfold replace_whitespace. apply list_lookup_fmap. Qed.

Lemma replace_whitespace_clean (s : jsstring) :
  Forall (λ c, is_whitespace c = false) (replace_whitespace s).
Proof.
  unfold replace_whitespace. rewrite Forall_fmap. apply Forall_forall.
  intros c _. simpl. destruct (is_whitespace c) eqn:Hc; [reflexivity | exact Hc].
Qed.

(** C5, as stated, fails at the empty variant: it is a string, not
    [null], yet the key is the product id alone, without separator. *)
Lemma cartItemId_empty_variant :
  cartItemId (js "p1") (Some []) = js "p1"
  ∧ cartItemId (js "p1") (Some [])
    ≠ js "p1" ++ [hyphen] ++ replace_whitespace [].
Proof. split; [reflexivity | discriminate]. Qed.

(** C5, amended: the key is a function of [(productId, variant)]; it is
    [productId] unchanged when [variant] is [null] or the empty string;
    for any other variant it is [productId], the separator [-], and the
    variant text in which every white space code unit is replaced by [-]
    and every other code unit is kept. Variants ["Tamanho: 42"] and
    ["Tamanho: 43"] of ["p1"] give the two distinct keys
    ["p1-Tamanho:-42"] and ["p1-Tamanho:-43"]. *)
Theorem cartItemId_spec (productId : jsstring) :
  cartItemId productId None = productId
  ∧ cartItemId productId (Some []) = productId
  ∧ (∀ variant, variant ≠ [] →
       cartItemId productId (Some variant)
       = productId ++ [hyphen] ++ replace_whitespace variant)
  ∧ (∀ variant,
       length (replace_whitespace variant) = length variant
       ∧ Forall (λ c, is_whitespace c = false) (replace_whitespace variant)
       ∧ ∀ i c, variant !! i = Some c →
           replace_whitespace variant !! i
           = Some (if is_whitespace c then hyphen else c))
  ∧ cartItemId (js "p1") (Some (js "Tamanho: 42")) = js "p1-Tamanho:-42"
  ∧ cartItemId (js "p1") (Some (js "Tamanho: 43")) = js "p1-Tamanho:-43"
  ∧ js "p1-Tamanho:-42" ≠ js "p1-Tamanho:-43".
Proof.
  split; [reflexivity |]. split; [reflexivity |]. split.
  { intros [| c variant] Hne; [done | reflexivity]. }
  split.
  { intros variant. split; [apply length_fmap |].
    split; [apply replace_whitespace_clean |].
    intros i c Hi. by rewrite replace_whitespace_lookup, Hi. }
  split; [reflexivity |]. split; [reflexivity | discriminate].
Qed.

(** ** Favourites *)

Lemma isFavorited_true (productId : jsstring) (st : State) :
  isFavorited productId st = true
  ↔ productId ∈ FavoriteItem.id <$> favorites st.
Proof.
  unfold isFavorited. rewrite bool_decide_eq_true, Exists_exists, list_elem_of_fmap.
  split.
  - intros (item & Hin & Hid). exists item. by split.
  - intros (item & Hid & Hin). exists item. by split.
Qed.

Lemma isFavorited_false (productId : jsstring) (st : State) :
  isFavorited productId st = false
  ↔ productId ∉ FavoriteItem.id <$> favorites st.
Proof.
  rewrite <- isFavorited_true. destruct (isFavorited productId st); naive_solver.
Qed.

(** [findIndex] finds nothing exactly when the id is not favourited. *)
Lemma findIndex_None (productId : jsstring) (l : list FavoriteItem.t) :
  list_find (λ item, FavoriteItem.id item = productId) l = None
  ↔ productId ∉ FavoriteItem.id <$> l.
Proof.
  rewrite list_find_None, Forall_forall, list_elem_of_fmap. split.
  - intros Hall (item & Hid & Hin). by apply (Hall item).
  - intros Hnot item Hin Hid. apply Hnot. by exists item.
Qed.

(** Deleting the one entry that carries an id leaves none with that id. *)
Lemma delete_unique_id (l : list FavoriteItem.t) (i : nat) (item : FavoriteItem.t) :
  NoDup (FavoriteItem.id <$> l) → l !! i = Some item →
  FavoriteItem.id item ∉ FavoriteItem.id <$> delete i l.
Proof.
  intros Hnd Hi.
  rewrite <- (take_drop_middle l i item Hi) in Hnd.
  rewrite fmap_app, fmap_cons in Hnd.
  apply NoDup_app in Hnd as (_ & Hleft & Hright).
  apply NoDup_cons in Hright as (Hright & _).
  rewrite delete_take_drop, fmap_app, elem_of_app.
  intros [Hin | Hin]; [| done].
  apply (Hleft _ Hin). left.
Qed.

(** The ids after a deletion and an append at the end are the old ids in
    another order. *)
Lemma delete_push_ids (l : list FavoriteItem.t) (i : nat) (item new : FavoriteItem.t) :
  l !! i = Some item → FavoriteItem.id new = FavoriteItem.id item →
  FavoriteItem.id <$> (delete i l ++ [new]) ≡ₚ FavoriteItem.id <$> l.
Proof.
  intros Hi Hid.
  rewrite <- (take_drop_middle l i item Hi) at 2.
  rewrite delete_take_drop, !fmap_app, fmap_cons. simpl. rewrite Hid.
  rewrite <- app_assoc. apply Permutation_app_head.
  symmetry. apply Permutation_cons_append.
Qed.

Lemma toggleFavorite_result (id name : jsstring) (price : float)
    (image : jsstring) (st : State) :
  (toggleFavorite id name price image st).1 = JUndefined
  ∧ cart (toggleFavorite id name price image st).2 = cart st.
Proof.
  unfold toggleFavorite.
  destruct (list_find _ (favorites st)) as [[i item] |]; done.
Qed.

(** The call on an id that is not favourited appends the new entry. *)
Lemma toggleFavorite_add (id name : jsstring) (price : float)
    (image : jsstring) (st : State) :
  isFavorited id st = false →
  favorites (toggleFavorite id name price image st).2
  = favorites st ++ [FavoriteItem.mk id name price image].
Proof.
  intros Hnot%isFavorited_false%findIndex_None.
  unfold toggleFavorite. by rewrite Hnot.
Qed.

(** The call on a favourited id deletes the first entry with that id. *)
Lemma toggleFavorite_remove (id name : jsstring) (price : float)
    (image : jsstring) (st : State) :
  isFavorited id st = true →
  ∃ i item, favorites st !! i = Some item ∧ FavoriteItem.id item = id
    ∧ (∀ j y, favorites st !! j = Some y → j < i → FavoriteItem.id y ≠ id)
    ∧ favorites (toggleFavorite id name price image st).2
      = delete i (favorites st).
Proof.
  intros Hin. unfold toggleFavorite.
  destruct (list_find _ (favorites st)) as [[i item] |] eqn:Hfind.
  - apply list_find_Some in Hfind as (Hi & Hid & Hfirst).
    exists i, item. done.
  - apply findIndex_None, isFavorited_false in Hfind. congruence.
Qed.

(** C2, as stated, fails: the call that adds ["p1"] to the empty
    favourites returns [undefined], not the boolean [true]. *)
Lemma toggleFavorite_returns_undefined :
  isFavorited (js "p1") empty_state = false
  ∧ (toggleFavorite (js "p1") (js "Shoe") 100 (js "img") empty_state).1
    = JUndefined
  ∧ (toggleFavorite (js "p1") (js "Shoe") 100 (js "img") empty_state).1
    ≠ JBool true.
Proof. split; [reflexivity |]. split; [reflexivity | discriminate]. Qed.

(** C2, amended: every call of [toggleFavorite] returns [undefined] and
    leaves the cart alone; the new membership is what the collection shows
    afterwards. When the id was not favourited before, the call appends the
    new entry and the id is favourited after it. When the id was
    favourited, the call deletes the first entry with that id, and, in a
    collection with at most one entry per id, the id is not favourited
    after it. *)
Theorem toggleFavorite_new_membership (id name : jsstring) (price : float)
    (image : jsstring) (st : State) :
  (toggleFavorite id name price image st).1 = JUndefined
  ∧ cart (toggleFavorite id name price image st).2 = cart st
  ∧ (isFavorited id st = false →
       favorites (toggleFavorite id name price image st).2
       = favorites st ++ [FavoriteItem.mk id name price image]
       ∧ isFavorited id (toggleFavorite id name price image st).2 = true)
  ∧ (isFavorited id st = true →
       (∃ (i : nat) item,
          favorites st !! i = Some item ∧ FavoriteItem.id item = id
          ∧ (∀ (j : nat) y, favorites st !! j = Some y → j < i →
               FavoriteItem.id y ≠ id)
          ∧ favorites (toggleFavorite id name price image st).2
            = delete i (favorites st))
       ∧ (NoDup (FavoriteItem.id <$> favorites st) →
          isFavorited id (toggleFavorite id name price image st).2 = false)).
Proof.
  destruct (toggleFavorite_result id name price image st) as [Hres Hcart].
  split; [exact Hres |]. split; [exact Hcart |]. split.
  - intros Hnot. pose proof (toggleFavorite_add id name price image st Hnot) as Hfav.
    split; [exact Hfav |].
    apply isFavorited_true. rewrite Hfav, fmap_app. set_solver.
  - intros Hin.
    pose proof (toggleFavorite_remove id name price image st Hin)
      as (i & item & Hi & Hid & Hfirst & Hfav).
    split; [by exists i, item |].
    intros Hnd. apply isFavorited_false. rewrite Hfav, <- Hid.
    by apply delete_unique_id.
Qed.

(** C7, as stated, fails on the returned values: starting from a single
    favourite ["p2"], the two calls on ["p1"] both return [undefined],
    neither [true] nor [false]. *)
Lemma toggleFavorite_twice_returns_undefined :
  let st0 := mkState [] [FavoriteItem.mk (js "p2") (js "Hat") 20 (js "img2")] in
  let r1 := toggleFavorite (js "p1") (js "Shoe") 100 (js "img") st0 in
  let r2 := toggleFavorite (js "p1") (js "Shoe") 100 (js "img") r1.2 in
  NoDup (FavoriteItem.id <$> favorites st0)
  ∧ isFavorited (js "p1") st0 = false
  ∧ r1.1 = JUndefined ∧ r1.1 ≠ JBool true
  ∧ r2.1 = JUndefined ∧ r2.1 ≠ JBool false.
Proof.
  cbv zeta. split.
  { apply NoDup_singleton. }
  split; [reflexivity |]. split; [reflexivity |]. split; [discriminate |].
  split; [reflexivity | discriminate].
Qed.

(** C7, amended: in a collection with at most one entry per id, two calls
    of [toggleFavorite] with the same id (whatever the other arguments)
    both return [undefined]; every id is favourited after the two calls
    exactly when it was before, the ids afterwards are the initial ids up
    to order, and there is still at most one entry per id. When the id was
    absent at first, it is favourited after the first call and not after
    the second, and the collection is back to the initial one. *)
Theorem toggleFavorite_twice (id name name' : jsstring) (price price' : float)
    (image image' : jsstring) (st : State) :
  NoDup (FavoriteItem.id <$> favorites st) →
  let st1 := (toggleFavorite id name price image st).2 in
  let r2 := toggleFavorite id name' price' image' st1 in
  (toggleFavorite id name price image st).1 = JUndefined
  ∧ r2.1 = JUndefined
  ∧ (∀ x, isFavorited x r2.2 = isFavorited x st)
  ∧ FavoriteItem.id <$> favorites r2.2 ≡ₚ FavoriteItem.id <$> favorites st
  ∧ NoDup (FavoriteItem.id <$> favorites r2.2)
  ∧ (isFavorited id st = false →
       isFavorited id st1 = true ∧ isFavorited id r2.2 = false
       ∧ favorites r2.2 = favorites st).
Proof.
  intros Hnd st1 r2.
  assert (Hperm_absent :
    isFavorited id st = false →
    isFavorited id st1 = true ∧ favorites r2.2 = favorites st).
  { intros Hnot. subst r2 st1.
    pose proof (toggleFavorite_add id name price image st Hnot) as Hfav1.
    split.
    - apply isFavorited_true. rewrite Hfav1, fmap_app. set_solver.
    - unfold toggleFavorite at 1. rewrite Hfav1.
      apply isFavorited_false, findIndex_None in Hnot.
      rewrite (list_find_app_r _ _ _ Hnot). simpl.
      rewrite decide_True by reflexivity. simpl.
      rewrite delete_take_drop, take_app_length.
      rewrite drop_ge by (rewrite length_app; simpl; lia).
      apply app_nil_r. }
  assert (Hperm :
    FavoriteItem.id <$> favorites r2.2 ≡ₚ FavoriteItem.id <$> favorites st).
  { destruct (isFavorited id st) eqn:Hmem.
    - subst r2 st1.
      pose proof (toggleFavorite_remove id name price image st Hmem)
        as (i & item & Hi & Hid & _ & Hfav1).
      assert (Hnot : isFavorited id (toggleFavorite id name price image st).2 = false).
      { apply isFavorited_false. rewrite Hfav1, <- Hid. by apply delete_unique_id. }
      rewrite (toggleFavorite_add _ name' price' image' _ Hnot), Hfav1.
      by apply (delete_push_ids _ _ item).
    - destruct (Hperm_absent eq_refl) as [_ ->]. reflexivity. }
  split; [apply toggleFavorite_result |].
  split; [apply toggleFavorite_result |].
  split.
  { intros x. destruct (isFavorited x st) eqn:Hx.
    - apply isFavorited_true. rewrite Hperm. by apply isFavorited_true.
    - apply isFavorited_false. rewrite Hperm. by apply isFavorited_false. }
  split; [exact Hperm |].
  split; [by rewrite Hperm |].
  intros Hnot. destruct (Hperm_absent Hnot) as [H1 H2].
  split; [exact H1 |]. split; [| exact H2].
  apply isFavorited_false. rewrite H2. by apply isFavorited_false.
Qed.

Lemma toggleFavorite_twice_witness :
  let st0 :=
    mkState [] [FavoriteItem.mk (js "p1") (js "Shoe") 100 (js "img");
                FavoriteItem.mk (js "p2") (js "Hat") 20 (js "img2")] in
  NoDup (FavoriteItem.id <$> favorites st0)
  ∧ FavoriteItem.id
      <$> favorites
            (toggleFavorite (js "p1") (js "Boot") 90 (js "img3")
               (toggleFavorite (js "p1") (js "Shoe") 100 (js "img") st0).2).2
    ≡ₚ FavoriteItem.id <$> favorites st0.
Proof.
  cbv zeta.
  assert (Hnd : NoDup (FavoriteItem.id <$>
            favorites (mkState [] [FavoriteItem.mk (js "p1") (js "Shoe") 100 (js "img");
                FavoriteItem.mk (js "p2") (js "Hat") 20 (js "img2")]))).
  { apply (bool_decide_unpack _). vm_compute. exact I. }
  split; [exact Hnd |].
  apply (toggleFavorite_twice (js "p1") (js "Shoe") (js "Boot") 100 90
           (js "img") (js "img3") _ Hnd).
Defined.

(** ** Cart *)

(** [find] finds nothing exactly when no entry has the key. *)
Lemma find_None (key : jsstring) (l : list CartItem.t) :
  list_find (λ item, CartItem.id item = key) l = None
  ↔ key ∉ CartItem.id <$> l.
Proof.
  rewrite list_find_None, Forall_forall, list_elem_of_fmap. split.
  - intros Hall (item & Hid & Hin). by apply (Hall item).
  - intros Hnot item Hin Hid. apply Hnot. by exists item.
Qed.

Lemma find_is_Some (key : jsstring) (l : list CartItem.t) :
  key ∈ CartItem.id <$> l →
  ∃ i item, list_find (λ item, CartItem.id item = key) l = Some (i, item).
Proof.
  intros Hin.
  destruct (list_find (λ item, CartItem.id item = key) l) as [[i item] |] eqn:Hfind.
  - by exists i, item.
  - by apply find_None in Hfind.
Qed.

(** Writing the quantity of the entry at [i] keeps every id in place. *)
Lemma ids_set_quantity (l : list CartItem.t) (i : nat) (item : CartItem.t) (q : float) :
  l !! i = Some item →
  CartItem.id <$> <[i := CartItem.set_quantity q item]> l = CartItem.id <$> l.
Proof.
  intros Hi. rewrite list_fmap_insert. simpl.
  apply list_insert_id. by rewrite list_lookup_fmap, Hi.
Qed.

(** An entry with the key exists: its quantity is incremented in place. *)
Lemma addItemToCart_existing (id name : jsstring) (price : float)
    (image : jsstring) (variant : option jsstring) (st : State)
    (i : nat) (item : CartItem.t) :
  list_find (λ item, CartItem.id item = cartItemId id variant) (cart st)
  = Some (i, item) →
  addItemToCart id name price image variant st
  = (JUndefined,
     set_cart
       (<[i := CartItem.set_quantity (CartItem.quantity item + 1)%float item]>
          (cart st)) st).
Proof. intros Hfind. unfold addItemToCart. by rewrite Hfind. Qed.

(** No entry has the key: a new entry with quantity 1 is appended. *)
Lemma addItemToCart_new (id name : jsstring) (price : float)
    (image : jsstring) (variant : option jsstring) (st : State) :
  cartItemId id variant ∉ cart_ids st →
  addItemToCart id name price image variant st
  = (JUndefined,
     set_cart
       (cart st
        ++ [CartItem.mk (cartItemId id variant) name price image 1%float variant])
       st).
Proof. intros Hnot%find_None. unfold addItemToCart. by rewrite Hnot. Qed.

(** The ids after a call are the ids before, with the key of the call at
    the end when it was not among them. *)
Lemma addItemToCart_ids (id name : jsstring) (price : float)
    (image : jsstring) (variant : option jsstring) (st : State) :
  cart_ids (addItemToCart id name price image variant st).2
  = if decide (cartItemId id variant ∈ cart_ids st)
    then cart_ids st
    else cart_ids st ++ [cartItemId id variant].
Proof.
  case_decide as Hin.
  - destruct (find_is_Some _ _ Hin) as (i & item & Hfind).
    rewrite (addItemToCart_existing _ _ _ _ _ _ _ _ Hfind). simpl.
    apply list_find_Some in Hfind as (Hi & _).
    by apply ids_set_quantity.
  - rewrite (addItemToCart_new _ _ _ _ _ _ Hin). simpl.
    by rewrite fmap_app.
Qed.

Lemma addItemToCart_NoDup (id name : jsstring) (price : float)
    (image : jsstring) (variant : option jsstring) (st : State) :
  NoDup (cart_ids st) →
  NoDup (cart_ids (addItemToCart id name price image variant st).2).
Proof.
  intros Hnd. rewrite addItemToCart_ids. case_decide as Hin; [done |].
  apply NoDup_app. split; [done |]. split; [| apply NoDup_singleton].
  intros x Hx Hx'. apply list_elem_of_singleton in Hx'. by subst.
Qed.

Lemma addItems_cons (c : AddItemCall) (calls : list AddItemCall) (st : State) :
  addItems (c :: calls) st
  = addItems calls
      (addItemToCart (call_id c) (call_name c) (call_price c) (call_image c)
                     (call_variant c) st).2.
Proof. reflexivity. Qed.

Lemma addItems_NoDup (calls : list AddItemCall) (st : State) :
  NoDup (cart_ids st) → NoDup (cart_ids (addItems calls st)).
Proof.
  revert st. induction calls as [| c calls IH]; intros st Hnd; [done |].
  rewrite addItems_cons. apply IH. by apply addItemToCart_NoDup.
Qed.

(** The keys in the cart after a sequence of calls are the keys it had and
    the keys of the calls. *)
Lemma addItems_ids (calls : list AddItemCall) (st : State) (key : jsstring) :
  key ∈ cart_ids (addItems calls st)
  ↔ key ∈ cart_ids st ∨ key ∈ call_key <$> calls.
Proof.
  revert st. induction calls as [| c calls IH]; intros st.
  - simpl. rewrite elem_of_nil. tauto.
  - rewrite addItems_cons, IH, addItemToCart_ids, fmap_cons, elem_of_cons.
    fold (call_key c). case_decide as Hin.
    + split; [tauto |]. intros [? | [-> | ?]]; tauto.
    + rewrite elem_of_app, list_elem_of_singleton. tauto.
Qed.

(** C3, as stated, fails for a first-time pair whose key is taken: after
    the add of ["p1"] with variant ["a b"], the add of ["p1"] with variant
    ["a-b"], a pair never added before, computes the same key ["p1-a-b"];
    it appends nothing and the one entry has quantity 2. *)
Lemma addItemToCart_key_collision :
  let st :=
    addItems [mkAddItemCall (js "p1") (js "Shoe") 100 (js "img")
                            (Some (js "a b"))] empty_state in
  let st' :=
    (addItemToCart (js "p1") (js "Shoe") 100 (js "img") (Some (js "a-b"))
       st).2 in
  Some (js "a-b") ≠ Some (js "a b")
  ∧ cartItemId (js "p1") (Some (js "a-b"))
    = cartItemId (js "p1") (Some (js "a b"))
  ∧ cart st'
    = [CartItem.mk (js "p1-a-b") (js "Shoe") 100 (js "img") 2
                   (Some (js "a b"))]
  ∧ length (cart st') = length (cart st).
Proof.
  cbv zeta. split; [discriminate |]. split; [reflexivity |].
  split; reflexivity.
Qed.

(** C3, amended: after any sequence of [addItemToCart] calls from the
    empty cart there is at most one entry per computed key, and the keys
    present are those of the calls made. A further call whose computed
    key is not in the cart appends an entry with that key, the arguments
    of the call and quantity 1. A further call whose computed key is in
    the cart, which is the case when an earlier call had the same id and
    variant and also when a different pair computes the same key, appends
    nothing: the entry with that key has its quantity increased by 1 and
    keeps its other fields, and every other entry is unchanged. *)
Theorem addItemToCart_one_entry_per_key (calls : list AddItemCall) :
  let st := addItems calls empty_state in
  NoDup (cart_ids st)
  ∧ (∀ key, key ∈ cart_ids st ↔ key ∈ call_key <$> calls)
  ∧ ∀ id name price image variant,
      let key := cartItemId id variant in
      let st' := (addItemToCart id name price image variant st).2 in
      ((∃ c, c ∈ calls ∧ call_id c = id ∧ call_variant c = variant) →
         key ∈ call_key <$> calls)
      ∧ (key ∉ call_key <$> calls →
         cart st'
         = cart st ++ [CartItem.mk key name price image 1%float variant])
      ∧ (key ∈ call_key <$> calls →
         ∃ (i : nat) item item',
           cart st !! i = Some item
           ∧ CartItem.id item = key
           ∧ cart st' !! i = Some item'
           ∧ CartItem.quantity item' = (CartItem.quantity item + 1)%float
           ∧ CartItem.id item' = CartItem.id item
           ∧ CartItem.name item' = CartItem.name item
           ∧ CartItem.price item' = CartItem.price item
           ∧ CartItem.image item' = CartItem.image item
           ∧ CartItem.variant item' = CartItem.variant item
           ∧ (∀ j : nat, j ≠ i → cart st' !! j = cart st !! j)
           ∧ length (cart st') = length (cart st)).
Proof.
  intros st.
  assert (Hkeys : ∀ key, key ∈ cart_ids st ↔ key ∈ call_key <$> calls).
  { intros key. subst st. rewrite addItems_ids. simpl. rewrite elem_of_nil. tauto. }
  split; [apply addItems_NoDup; simpl; constructor |].
  split; [exact Hkeys |].
  intros id name price image variant key st'. split; [| split].
  - intros (c & Hc & <- & <-). apply list_elem_of_fmap. by exists c.
  - intros Hnew. rewrite <- Hkeys in Hnew. subst st'.
    by rewrite (addItemToCart_new _ _ _ _ _ _ Hnew).
  - intros Hold. rewrite <- Hkeys in Hold.
    destruct (find_is_Some _ _ Hold) as (i & item & Hfind). subst st'.
    rewrite (addItemToCart_existing _ _ _ _ _ _ _ _ Hfind). simpl.
    apply list_find_Some in Hfind as (Hi & Hid & _).
    exists i, item,
      (CartItem.mk (CartItem.id item) (CartItem.name item)
         (CartItem.price item) (CartItem.image item)
         (CartItem.quantity item + 1)%float (CartItem.variant item)).
    split; [exact Hi |]. split; [exact Hid |]. split.
    { apply list_lookup_insert_eq. by apply lookup_lt_Some in Hi. }
    do 6 (split; [reflexivity |]).
    split; [intros j Hj; by apply list_lookup_insert_ne |].
    apply length_insert.
Qed.

(** C9: when the key of the call is already in the cart, the call changes
    the quantity of the first entry with that key, by [+ 1], and nothing
    else: that entry keeps its id, name, price, image and variant whatever
    the arguments of the call, every other entry is unchanged, no entry is
    added, and the favourites are untouched. *)
Theorem addItemToCart_existing_only_quantity (id name : jsstring)
    (price : float) (image : jsstring) (variant : option jsstring)
    (st : State) :
  cartItemId id variant ∈ cart_ids st →
  let st' := (addItemToCart id name price image variant st).2 in
  ∃ (i : nat) item item',
    cart st !! i = Some item
    ∧ CartItem.id item = cartItemId id variant
    ∧ (∀ (j : nat) y, cart st !! j = Some y → j < i →
         CartItem.id y ≠ cartItemId id variant)
    ∧ cart st' !! i = Some item'
    ∧ CartItem.quantity item' = (CartItem.quantity item + 1)%float
    ∧ CartItem.id item' = CartItem.id item
    ∧ CartItem.name item' = CartItem.name item
    ∧ CartItem.price item' = CartItem.price item
    ∧ CartItem.image item' = CartItem.image item
    ∧ CartItem.variant item' = CartItem.variant item
    ∧ (∀ j : nat, j ≠ i → cart st' !! j = cart st !! j)
    ∧ length (cart st') = length (cart st)
    ∧ favorites st' = favorites st.
Proof.
  intros Hin st'.
  destruct (find_is_Some _ _ Hin) as (i & item & Hfind). subst st'.
  rewrite (addItemToCart_existing _ _ _ _ _ _ _ _ Hfind). simpl.
  apply list_find_Some in Hfind as (Hi & Hid & Hfirst).
  exists i, item,
    (CartItem.set_quantity (CartItem.quantity item + 1)%float item).
  split; [exact Hi |]. split; [exact Hid |]. split; [exact Hfirst |].
  split.
  { apply list_lookup_insert_eq. by apply lookup_lt_Some in Hi. }
  do 6 (split; [reflexivity |]).
  split; [intros j Hj; by apply list_lookup_insert_ne |].
  split; [apply length_insert | reflexivity].
Qed.

Lemma addItemToCart_existing_only_quantity_witness :
  let st0 :=
    mkState [CartItem.mk (js "p1") (js "Shoe") 100 (js "img1") 1 None;
             CartItem.mk (js "p2") (js "Hat") 20 (js "img2") 3 None] [] in
  cartItemId (js "p2") None ∈ cart_ids st0
  ∧ cart (addItemToCart (js "p2") (js "Cap") 5 (js "other") None st0).2
    = [CartItem.mk (js "p1") (js "Shoe") 100 (js "img1") 1 None;
       CartItem.mk (js "p2") (js "Hat") 20 (js "img2") 4 None]
  ∧ length (cart (addItemToCart (js "p2") (js "Cap") 5 (js "other") None st0).2)
    = length (cart st0).
Proof.
  cbv zeta.
  assert (Hin : cartItemId (js "p2") None
                ∈ cart_ids
                    (mkState
                       [CartItem.mk (js "p1") (js "Shoe") 100 (js "img1") 1 None;
                        CartItem.mk (js "p2") (js "Hat") 20 (js "img2") 3 None] [])).
  { apply (bool_decide_unpack _). vm_compute. exact I. }
  split; [exact Hin |]. split; [reflexivity |].
  destruct (addItemToCart_existing_only_quantity (js "p2") (js "Cap") 5
              (js "other") None _ Hin)
    as (i & item & item' & H).
  apply H.
Defined.

(** C8: when no entry of the cart has the given id,
    [updateItemQuantity(id, change)] returns at once, for every [change]:
    nothing is thrown and the state, the cart collection with it, is exactly
    what it was. *)
Theorem updateItemQuantity_absent_noop (id : jsstring) (change : float)
    (st : State) :
  id ∉ cart_ids st →
  updateItemQuantity id change st = (JUndefined, st)
  ∧ cart (updateItemQuantity id change st).2 = cart st.
Proof.
  intros Hnot%find_None. unfold updateItemQuantity. by rewrite Hnot.
Qed.

Lemma updateItemQuantity_absent_noop_witness :
  let st0 :=
    mkState [CartItem.mk (js "p1") (js "Shoe") 100 (js "img1") 1 None] [] in
  (js "p9" ∉ cart_ids st0)
  ∧ updateItemQuantity (js "p9") (-1) st0 = (JUndefined, st0).
Proof.
  cbv zeta.
  assert (Hnot : js "p9"
                 ∉ cart_ids
                     (mkState
                        [CartItem.mk (js "p1") (js "Shoe") 100 (js "img1") 1 None]
                        [])).
  { apply (bool_decide_unpack _). vm_compute. exact I. }
  split; [exact Hnot |].
  apply (updateItemQuantity_absent_noop (js "p9") (-1) _ Hnot).
Defined.

(** A quantity of at least 1 is not at most 0 (a NaN is neither). *)
Lemma leb_one_not_leb_zero (q : float) :
  (1 <=? q)%float = true → (q <=? 0)%float = false.
Proof.
  rewrite !leb_spec.
  change (Prim2SF 1) with (S754_finite false 4503599627370496 (-52)).
  change (Prim2SF 0) with (S754_zero false).
  destruct (Prim2SF q) as [s | s | | s m e]; try destruct s; simpl;
    first [discriminate | reflexivity].
Qed.

(** The entry found: its quantity is written, and the entries with the id
    are filtered out when the new quantity is at most 0. *)
Lemma updateItemQuantity_found (id : jsstring) (change : float) (st : State)
    (i : nat) (item : CartItem.t) :
  list_find (λ item, CartItem.id item = id) (cart st) = Some (i, item) →
  updateItemQuantity id change st
  = (JUndefined,
     set_cart
       (let cart1 :=
          <[i := CartItem.set_quantity (CartItem.quantity item + change)%float
                   item]> (cart st) in
        if (CartItem.quantity item + change <=? 0)%float
        then filter (λ cartItem, CartItem.id cartItem ≠ id) cart1
        else cart1)
       st).
Proof. intros Hfind. unfold updateItemQuantity. by rewrite Hfind. Qed.

(** Filtering out an id does not see a write to an entry with that id. *)
Lemma filter_id_insert (id : jsstring) (l : list CartItem.t) (i : nat)
    (item item' : CartItem.t) :
  l !! i = Some item → CartItem.id item = id → CartItem.id item' = id →
  filter (λ cartItem, CartItem.id cartItem ≠ id) (<[i := item']> l)
  = filter (λ cartItem, CartItem.id cartItem ≠ id) l.
Proof.
  intros Hi Hid Hid'.
  rewrite <- (take_drop_middle l i item Hi) at 2.
  rewrite insert_take_drop by (by apply lookup_lt_Some in Hi).
  rewrite !filter_app, !filter_cons.
  rewrite !decide_False by (intros Hne; by apply Hne).
  reflexivity.
Qed.

(** The cart after a removing update is the old cart without the id. *)
Lemma updateItemQuantity_removal (id : jsstring) (change : float) (st : State)
    (i : nat) (item : CartItem.t) :
  list_find (λ item, CartItem.id item = id) (cart st) = Some (i, item) →
  (CartItem.quantity item + change <=? 0)%float = true →
  cart (updateItemQuantity id change st).2
  = filter (λ cartItem, CartItem.id cartItem ≠ id) (cart st).
Proof.
  intros Hfind Hle. rewrite (updateItemQuantity_found _ _ _ _ _ Hfind).
  simpl. rewrite Hle.
  apply list_find_Some in Hfind as (Hi & Hid & _).
  by apply (filter_id_insert _ _ _ item).
Qed.

Lemma filter_id_not_elem (id : jsstring) (l : list CartItem.t) :
  id ∉ CartItem.id <$> filter (λ cartItem, CartItem.id cartItem ≠ id) l.
Proof.
  rewrite list_elem_of_fmap. intros (x & Hid & Hin).
  apply list_elem_of_filter in Hin as [Hne _]. by apply Hne.
Qed.

(** The floor: no entry has a quantity at most 0. *)
Lemma updateItemQuantity_floor (id : jsstring) (change : float) (st : State) :
  Forall (λ item, (CartItem.quantity item <=? 0)%float = false) (cart st) →
  Forall (λ item, (CartItem.quantity item <=? 0)%float = false)
         (cart (updateItemQuantity id change st).2).
Proof.
  intros Hfloor.
  destruct (list_find (λ item, CartItem.id item = id) (cart st))
    as [[i item] |] eqn:Hfind.
  - destruct (CartItem.quantity item + change <=? 0)%float eqn:Hle.
    + rewrite (updateItemQuantity_removal _ _ _ _ _ Hfind Hle).
      rewrite Forall_forall in Hfloor |- *.
      intros x Hx%list_elem_of_filter. apply Hfloor, Hx.
    + rewrite (updateItemQuantity_found _ _ _ _ _ Hfind). simpl. rewrite Hle.
      by apply Forall_insert.
  - unfold updateItemQuantity. by rewrite Hfind.
Qed.

Lemma updateQuantities_floor (calls : list (jsstring * float)) (st : State) :
  Forall (λ item, (CartItem.quantity item <=? 0)%float = false) (cart st) →
  Forall (λ item, (CartItem.quantity item <=? 0)%float = false)
         (cart (updateQuantities calls st)).
Proof.
  revert st. induction calls as [| [id change] calls IH]; intros st Hfloor;
    [done |].
  apply IH. by apply updateItemQuantity_floor.
Qed.

(** C4: from a cart in which every quantity is at least 1, after any
    sequence of [updateItemQuantity] calls no entry has a quantity at most
    0; and a further call that brings the quantity of the entry it finds
    to at most 0 leaves no entry with that id in the collection. *)
Theorem updateItemQuantity_quantity_floor (calls : list (jsstring * float))
    (st : State) :
  Forall (λ item, (1 <=? CartItem.quantity item)%float = true) (cart st) →
  let st' := updateQuantities calls st in
  Forall (λ item, (CartItem.quantity item <=? 0)%float = false) (cart st')
  ∧ ∀ id change (i : nat) item,
      list_find (λ item, CartItem.id item = id) (cart st') = Some (i, item) →
      (CartItem.quantity item + change <=? 0)%float = true →
      (id ∉ cart_ids (updateItemQuantity id change st').2)
      ∧ Forall (λ item, (CartItem.quantity item <=? 0)%float = false)
               (cart (updateItemQuantity id change st').2).
Proof.
  intros Hone st'.
  assert (Hfloor : Forall (λ item, (CartItem.quantity item <=? 0)%float = false)
                          (cart st')).
  { apply updateQuantities_floor.
    eapply Forall_impl; [exact Hone |]. intros item. apply leb_one_not_leb_zero. }
  split; [exact Hfloor |].
  intros id change i item Hfind Hle. split.
  - rewrite (updateItemQuantity_removal _ _ _ _ _ Hfind Hle).
    apply filter_id_not_elem.
  - by apply updateItemQuantity_floor.
Qed.

Lemma updateItemQuantity_quantity_floor_witness :
  let st0 :=
    mkState [CartItem.mk (js "p1") (js "Shoe") 100 (js "img1") 1 None;
             CartItem.mk (js "p2") (js "Hat") 20 (js "img2") 2 None] [] in
  let calls := [(js "p1", (-1)%float); (js "p2", (-1)%float);
                (js "p9", 1%float); (js "p2", (-1)%float)] in
  Forall (λ item, (1 <=? CartItem.quantity item)%float = true) (cart st0)
  ∧ cart (updateQuantities calls st0) = []
  ∧ Forall (λ item, (CartItem.quantity item <=? 0)%float = false)
           (cart (updateQuantities calls st0)).
Proof.
  cbv zeta.
  assert (Hone :
    Forall (λ item, (1 <=? CartItem.quantity item)%float = true)
      (cart (mkState
               [CartItem.mk (js "p1") (js "Shoe") 100 (js "img1") 1 None;
                CartItem.mk (js "p2") (js "Hat") 20 (js "img2") 2 None] []))).
  { simpl. repeat constructor. }
  split; [exact Hone |]. split; [reflexivity |].
  apply (updateItemQuantity_quantity_floor
           [(js "p1", (-1)%float); (js "p2", (-1)%float);
            (js "p9", 1%float); (js "p2", (-1)%float)] _ Hone).
Defined.

(** C10: when the update brings the quantity of the entry it finds to at
    most 0, the cart afterwards is the cart before without every entry
    whose id is the given one, duplicates included: none with that id
    remains, and the entries with another id are all kept, in order. *)
Theorem updateItemQuantity_removes_every_entry (id : jsstring)
    (change : float) (st : State) (i : nat) (item : CartItem.t) :
  list_find (λ item, CartItem.id item = id) (cart st) = Some (i, item) →
  (CartItem.quantity item + change <=? 0)%float = true →
  let st' := (updateItemQuantity id change st).2 in
  cart st' = filter (λ cartItem, CartItem.id cartItem ≠ id) (cart st)
  ∧ (id ∉ cart_ids st')
  ∧ (∀ other, CartItem.id other ≠ id → other ∈ cart st' ↔ other ∈ cart st)
  ∧ favorites st' = favorites st.
Proof.
  intros Hfind Hle st'. subst st'.
  pose proof (updateItemQuantity_removal _ _ _ _ _ Hfind Hle) as Hcart.
  split; [exact Hcart |]. rewrite Hcart.
  split; [apply filter_id_not_elem |]. split.
  - intros other Hne. rewrite list_elem_of_filter. tauto.
  - by rewrite (updateItemQuantity_found _ _ _ _ _ Hfind).
Qed.

Lemma updateItemQuantity_removes_every_entry_witness :
  let st0 :=
    mkState [CartItem.mk (js "p1") (js "Shoe") 100 (js "img1") 1 None;
             CartItem.mk (js "p2") (js "Hat") 20 (js "img2") 2 None;
             CartItem.mk (js "p1") (js "Shoe") 100 (js "img1") 5 None] [] in
  list_find (λ item, CartItem.id item = js "p1") (cart st0)
  = Some (0, CartItem.mk (js "p1") (js "Shoe") 100 (js "img1") 1 None)
  ∧ (1 + -1 <=? 0)%float = true
  ∧ cart (updateItemQuantity (js "p1") (-1) st0).2
    = [CartItem.mk (js "p2") (js "Hat") 20 (js "img2") 2 None]
  ∧ (js "p1" ∉ cart_ids (updateItemQuantity (js "p1") (-1) st0).2).
Proof.
  cbv zeta.
  assert (Hfind :
    list_find (λ item, CartItem.id item = js "p1")
      (cart (mkState
               [CartItem.mk (js "p1") (js "Shoe") 100 (js "img1") 1 None;
                CartItem.mk (js "p2") (js "Hat") 20 (js "img2") 2 None;
                CartItem.mk (js "p1") (js "Shoe") 100 (js "img1") 5 None] []))
    = Some (0, CartItem.mk (js "p1") (js "Shoe") 100 (js "img1") 1 None)).
  { reflexivity. }
  split; [exact Hfind |]. split; [reflexivity |]. split; [reflexivity |].
  apply (updateItemQuantity_removes_every_entry (js "p1") (-1) _ _ _ Hfind
           eq_refl).
Defined.

(** ** Subtotal *)

(** C6, as stated, fails: the computed subtotal is not the sum of the
    products. With unit prices 0.1 and 0.2 (their nearest binary64 values)
    the computed total differs from the exact sum of the two products; and
    the three items of prices 10^16, 1 and 1 total 10^16 in that order and
    10^16 + 2 in the opposite order, while their exact sums agree. *)
Lemma renderSubtotal_total_not_exact_sum :
  let cart :=
    [CartItem.mk (js "a") (js "A") 0x1.999999999999ap-4 (js "i") 1 None;
     CartItem.mk (js "b") (js "B") 0x1.999999999999ap-3 (js "i") 1 None] in
  let big := CartItem.mk (js "c") (js "C") 1e16 (js "i") 1 None in
  let one := CartItem.mk (js "d") (js "D") 1 (js "i") 1 None in
  let two := CartItem.mk (js "e") (js "E") 1 (js "i") 1 None in
  (∃ computed exact,
     exact_value (renderSubtotal_total cart) = Some computed
     ∧ exact_subtotal cart = Some exact
     ∧ ¬ QArith_base.Qeq computed exact)
  ∧ renderSubtotal_total [big; one; two] = 1e16%float
  ∧ renderSubtotal_total [two; one; big] = 10000000000000002%float
  ∧ [big; one; two] ≡ₚ [two; one; big]
  ∧ ∃ forwards backwards,
      exact_subtotal [big; one; two] = Some forwards
      ∧ exact_subtotal [two; one; big] = Some backwards
      ∧ QArith_base.Qeq forwards backwards.
Proof.
  cbv zeta. split.
  { eexists _, _. split; [vm_compute; reflexivity |].
    split; [vm_compute; reflexivity |].
    intros Heq. apply QArith_base.Qeq_bool_iff in Heq.
    vm_compute in Heq. discriminate. }
  split; [reflexivity |]. split; [reflexivity |]. split.
  { match goal with
    | |- ?l ≡ₚ _ => exact (symmetry (reverse_Permutation l))
    end. }
  eexists _, _. split; [vm_compute; reflexivity |].
  split; [vm_compute; reflexivity |].
  apply QArith_base.Qeq_bool_iff. vm_compute. reflexivity.
Qed.

(** C6, amended: the computed subtotal is the sum of the products
    [price * quantity] taken in cart order in binary64 arithmetic: it is
    0 for the empty cart, and the total of a cart followed by one more
    item is the total of the cart plus the product of that item, where the
    product and the sum are each the exact result rounded to binary64
    (the operations [SF64mul] and [SF64add] of the IEEE 754
    specification). *)
Theorem renderSubtotal_total_rounded_sum :
  renderSubtotal_total [] = 0%float
  ∧ ∀ cart item,
      renderSubtotal_total (cart ++ [item])
      = (renderSubtotal_total cart
         + CartItem.price item * CartItem.quantity item)%float
      ∧ Prim2SF (renderSubtotal_total (cart ++ [item]))
        = SF64add (Prim2SF (renderSubtotal_total cart))
                  (SF64mul (Prim2SF (CartItem.price item))
                           (Prim2SF (CartItem.quantity item))).
Proof.
  split; [reflexivity |]. intros cart item.
  assert (Hstep :
    renderSubtotal_total (cart ++ [item])
    = (renderSubtotal_total cart
       + CartItem.price item * CartItem.quantity item)%float).
  { unfold renderSubtotal_total. by rewrite fold_left_app. }
  split; [exact Hstep |].
  by rewrite Hstep, add_spec, mul_spec.
Qed.

(** ** Scenarios *)

(** First add to the empty cart: one entry, one item, subtotal 100. *)
Example scenario_first_add :
  let st := (addItemToCart (js "p1") (js "Shoe") 100 (js "img1") None
               empty_state).2 in
  cart st = [CartItem.mk (js "p1") (js "Shoe") 100 (js "img1") 1 None]
  ∧ updateCartIconCount_totalItems (cart st) = 1%float
  ∧ renderSubtotal_total (cart st) = 100%float.
Proof. cbv zeta. repeat split. Qed.

(** The same add again: quantity 2, and the subtotal doubles. *)
Example scenario_second_add :
  let st :=
    addItems [mkAddItemCall (js "p1") (js "Shoe") 100 (js "img1") None;
              mkAddItemCall (js "p1") (js "Other") 5 (js "img9") None]
             empty_state in
  cart st = [CartItem.mk (js "p1") (js "Shoe") 100 (js "img1") 2 None]
  ∧ renderSubtotal_total (cart st) = 200%float.
Proof. cbv zeta. repeat split. Qed.

(** Decreasing the only item from quantity 1 empties the cart. *)
Example scenario_remove :
  let st0 :=
    mkState [CartItem.mk (js "p1") (js "Shoe") 100 (js "img1") 1 None] [] in
  let st := (updateItemQuantity (js "p1") (-1) st0).2 in
  cart st = [] ∧ updateCartIconCount_totalItems (cart st) = 0%float.
Proof. cbv zeta. repeat split. Qed.

(** Two sizes of one product are two entries. *)
Example scenario_variants :
  cart_ids
    (addItems
       [mkAddItemCall (js "p1") (js "Shoe") 100 (js "img")
                      (Some (js "Tamanho: 42"));
        mkAddItemCall (js "p1") (js "Shoe") 100 (js "img")
                      (Some (js "Tamanho: 43"))]
       empty_state)
  = [js "p1-Tamanho:-42"; js "p1-Tamanho:-43"].
Proof. reflexivity. Qed.

(** Toggling twice: one favourite, then none. *)
Example scenario_toggle :
  let st1 := (toggleFavorite (js "p1") (js "Shoe") 100 (js "img")
                empty_state).2 in
  let st2 := (toggleFavorite (js "p1") (js "Shoe") 100 (js "img") st1).2 in
  isFavorited (js "p1") st1 = true ∧ length (favorites st1) = 1
  ∧ isFavorited (js "p1") st2 = false ∧ length (favorites st2) = 0.
Proof. cbv zeta. repeat split. Qed.

(** The sum is taken in binary64: unit prices 0.1 and 0.2 (their nearest
    binary64 values) total 0.30000000000000004, one unit in the last place
    above the binary64 value nearest to 0.3. *)
Example scenario_rounding :
  renderSubtotal_total
    [CartItem.mk (js "a") (js "A") 0x1.999999999999ap-4 (js "i") 1 None;
     CartItem.mk (js "b") (js "B") 0x1.999999999999ap-3 (js "i") 1 None]
  = 0x1.3333333333334p-2%float
  ∧ JSON.number (js "0.3") = Some 0x1.3333333333333p-2%float.
Proof. split; reflexivity. Qed.

(** Stored texts: an array of entries is read as such, [null] and a
    missing key as the empty array. *)
Example scenario_load :
  load {[ js "favorites" := js "[{}, [1, true]]" ]} (js "favorites")
  = Returns (JArr [JObj []; JArr [JNum 1; JBool true]])
  ∧ load {[ js "favorites" := js "null" ]} (js "favorites") = Returns (JArr [])
  ∧ load ∅ (js "favorites") = Returns (JArr []).
Proof.
  split; [| split].
  - erewrite load_stored by apply lookup_singleton_eq. reflexivity.
  - erewrite load_stored by apply lookup_singleton_eq. reflexivity.
  - apply load_missing, lookup_empty.
Qed.

(** * Further properties of the state functions *)

(** ** Reading the store *)

(** X1: whatever [load] returns is truthy: the [|| []] replaces every
    falsy parsed value, so a collection variable never holds [null],
    [false], [0] or the empty string. *)
Theorem load_returns_truthy (localStorage : Storage) (key : jsstring)
    (v : JSValue) :
  load localStorage key = Returns v → truthy v = true.
Proof.
  unfold load, JSON_parse.
  destruct (JSON.value _) as [parsed |]; simpl; [| discriminate].
  intros [= <-]. by destruct (truthy parsed) eqn:Hparsed.
Qed.

Lemma load_returns_truthy_witness :
  load {[ js "favorites" := js "0" ]} (js "favorites") = Returns (JArr [])
  ∧ truthy (JArr []) = true.
Proof.
  assert (Hload : load {[ js "favorites" := js "0" ]} (js "favorites")
                  = Returns (JArr [])).
  { erewrite load_stored by apply lookup_singleton_eq. reflexivity. }
  split; [exact Hload |].
  apply (load_returns_truthy _ _ _ Hload).
Defined.

(** X2: the initialisation throws exactly when one of the two stored
    texts is not JSON; the cart is read first, so its error is the one
    thrown and the favourites are then not read. *)
Theorem init_throws_iff (localStorage : Storage) :
  init localStorage = Throws SyntaxError
  ↔ (∃ stored, localStorage !! js "shoppingCart" = Some stored
               ∧ JSON.value stored = None)
    ∨ (∃ stored, localStorage !! js "favorites" = Some stored
                 ∧ JSON.value stored = None).
Proof.
  unfold init. split.
  - destruct (localStorage !! js "shoppingCart") as [c |] eqn:Hc.
    + rewrite (load_stored _ _ _ Hc).
      destruct (JSON.value c) as [vc |] eqn:Hvc; [| intros _; left; by exists c].
      simpl.
      destruct (localStorage !! js "favorites") as [f |] eqn:Hf.
      * rewrite (load_stored _ _ _ Hf).
        destruct (JSON.value f) as [vf |] eqn:Hvf; [discriminate |].
        intros _. right. by exists f.
      * rewrite (load_missing _ _ Hf). discriminate.
    + rewrite (load_missing _ _ Hc). simpl.
      destruct (localStorage !! js "favorites") as [f |] eqn:Hf.
      * rewrite (load_stored _ _ _ Hf).
        destruct (JSON.value f) as [vf |] eqn:Hvf; [discriminate |].
        intros _. right. by exists f.
      * rewrite (load_missing _ _ Hf). discriminate.
  - intros [(c & Hc & Hbad) | (f & Hf & Hbad)].
    + by rewrite (load_stored _ _ _ Hc), Hbad.
    + rewrite (load_stored _ _ _ Hf), Hbad.
      destruct (load localStorage (js "shoppingCart")) as [vc | []]; reflexivity.
Qed.

(** ** Favourites *)

(** X3: a call of [toggleFavorite] changes the number of favourites by
    exactly one: one more when the id was not favourited, one fewer (of at
    least one) when it was. *)
Theorem toggleFavorite_length (id name : jsstring) (price : float)
    (image : jsstring) (st : State) :
  (isFavorited id st = false →
     length (favorites (toggleFavorite id name price image st).2)
     = length (favorites st) + 1)
  ∧ (isFavorited id st = true →
     0 < length (favorites st)
     ∧ length (favorites (toggleFavorite id name price image st).2)
       = length (favorites st) - 1).
Proof.
  split.
  - intros Hnot. rewrite (toggleFavorite_add _ _ _ _ _ Hnot), length_app.
    reflexivity.
  - intros Hin.
    destruct (toggleFavorite_remove id name price image st Hin)
      as (i & item & Hi & _ & _ & ->).
    split; [apply lookup_lt_Some in Hi; lia |].
    apply length_delete. by exists item.
Qed.

(** X4: [toggleFavorite] keeps the favourites free of duplicate ids. *)
Theorem toggleFavorite_NoDup (id name : jsstring) (price : float)
    (image : jsstring) (st : State) :
  NoDup (FavoriteItem.id <$> favorites st) →
  NoDup (FavoriteItem.id <$> favorites (toggleFavorite id name price image st).2).
Proof.
  intros Hnd. destruct (isFavorited id st) eqn:Hmem.
  - destruct (toggleFavorite_remove id name price image st Hmem)
      as (i & item & _ & _ & _ & ->).
    eapply sublist_NoDup; [exact Hnd |].
    rewrite list_fmap_delete. apply sublist_delete.
  - rewrite (toggleFavorite_add _ _ _ _ _ Hmem), fmap_app.
    apply NoDup_app. split; [exact Hnd |]. split; [| apply NoDup_singleton].
    intros x Hx Hx'. apply list_elem_of_singleton in Hx'. subst x.
    by apply isFavorited_false in Hmem.
Qed.

Lemma toggleFavorite_NoDup_witness :
  let st0 :=
    mkState [] [FavoriteItem.mk (js "p1") (js "Shoe") 100 (js "img");
                FavoriteItem.mk (js "p2") (js "Hat") 20 (js "img2");
                FavoriteItem.mk (js "p3") (js "Bag") 50 (js "img3")] in
  NoDup (FavoriteItem.id <$> favorites st0)
  ∧ favorites (toggleFavorite (js "p2") (js "Hat") 20 (js "img2") st0).2
    = [FavoriteItem.mk (js "p1") (js "Shoe") 100 (js "img");
       FavoriteItem.mk (js "p3") (js "Bag") 50 (js "img3")]
  ∧ NoDup (FavoriteItem.id
             <$> favorites (toggleFavorite (js "p2") (js "Hat") 20 (js "img2")
                              st0).2)
  ∧ NoDup (FavoriteItem.id
             <$> favorites (toggleFavorite (js "p4") (js "Cap") 5 (js "img4")
                              st0).2).
Proof.
  cbv zeta.
  assert (Hnd :
    NoDup (FavoriteItem.id
             <$> favorites
                   (mkState [] [FavoriteItem.mk (js "p1") (js "Shoe") 100 (js "img");
                                FavoriteItem.mk (js "p2") (js "Hat") 20 (js "img2");
                                FavoriteItem.mk (js "p3") (js "Bag") 50 (js "img3")]))).
  { apply (bool_decide_unpack _). vm_compute. exact I. }
  split; [exact Hnd |]. split; [reflexivity |]. split.
  - apply (toggleFavorite_NoDup (js "p2") (js "Hat") 20 (js "img2") _ Hnd).
  - apply (toggleFavorite_NoDup (js "p4") (js "Cap") 5 (js "img4") _ Hnd).
Defined.

(** ** Cart *)

(** X5: [addItemToCart] never removes or reorders: the keys before the
    call are a prefix of the keys after it, the key of the call is in the
    cart afterwards, every entry keeps its position, id, name, price, image
    and variant, the favourites are untouched and the call returns
    [undefined]. *)
Theorem addItemToCart_keeps_entries (id name : jsstring) (price : float)
    (image : jsstring) (variant : option jsstring) (st : State) :
  let r := addItemToCart id name price image variant st in
  r.1 = JUndefined
  ∧ favorites r.2 = favorites st
  ∧ cart_ids st `prefix_of` cart_ids r.2
  ∧ cartItemId id variant ∈ cart_ids r.2
  ∧ ∀ (j : nat) item, cart st !! j = Some item →
      ∃ item', cart r.2 !! j = Some item'
        ∧ CartItem.id item' = CartItem.id item
        ∧ CartItem.name item' = CartItem.name item
        ∧ CartItem.price item' = CartItem.price item
        ∧ CartItem.image item' = CartItem.image item
        ∧ CartItem.variant item' = CartItem.variant item.
Proof.
  intros r. subst r.
  destruct (decide (cartItemId id variant ∈ cart_ids st)) as [Hin | Hnew].
  - destruct (find_is_Some _ _ Hin) as (i & found & Hfind).
    pose proof Hfind as (Hi & Hid & _)%list_find_Some.
    rewrite (addItemToCart_existing _ _ _ _ _ _ _ _ Hfind). simpl.
    split; [reflexivity |]. split; [reflexivity |].
    rewrite (ids_set_quantity _ _ _ _ Hi).
    split; [reflexivity |]. split; [exact Hin |].
    intros j item Hj. destruct (decide (j = i)) as [-> | Hne].
    + rewrite Hi in Hj. injection Hj as <-.
      eexists. split; [apply list_lookup_insert_eq; by apply lookup_lt_Some in Hi |].
      done.
    + exists item. by rewrite list_lookup_insert_ne.
  - rewrite (addItemToCart_new _ _ _ _ _ _ Hnew). simpl.
    split; [reflexivity |]. split; [reflexivity |]. rewrite fmap_app.
    split; [by apply prefix_app_r |].
    split; [rewrite elem_of_app; right; simpl; left |].
    intros j item Hj. exists item. split; [| done].
    by apply lookup_app_l_Some.
Qed.

(** X6: both cart functions keep the cart free of duplicate keys, from any
    cart that is. *)
Theorem cart_functions_keep_NoDup (st : State) :
  NoDup (cart_ids st) →
  (∀ id name price image variant,
     NoDup (cart_ids (addItemToCart id name price image variant st).2))
  ∧ (∀ id change, NoDup (cart_ids (updateItemQuantity id change st).2)).
Proof.
  intros Hnd. split.
  - intros. by apply addItemToCart_NoDup.
  - intros id change.
    destruct (list_find (λ item, CartItem.id item = id) (cart st))
      as [[i item] |] eqn:Hfind.
    + rewrite (updateItemQuantity_found _ _ _ _ _ Hfind). simpl.
      pose proof Hfind as (Hi & _)%list_find_Some.
      destruct (_ <=? 0)%float.
      * eapply sublist_NoDup; [exact Hnd |].
        erewrite <- (ids_set_quantity (cart st)) by exact Hi.
        apply fmap_sublist, sublist_filter.
      * by rewrite (ids_set_quantity _ _ _ _ Hi).
    + unfold updateItemQuantity. by rewrite Hfind.
Qed.

Lemma cart_functions_keep_NoDup_witness :
  let st0 :=
    mkState [CartItem.mk (js "p1") (js "Shoe") 100 (js "img1") 1 None;
             CartItem.mk (js "p2") (js "Hat") 20 (js "img2") 2 None;
             CartItem.mk (js "p1-Tamanho:-42") (js "Shoe") 100 (js "img1") 1
                         (Some (js "Tamanho: 42"))] [] in
  NoDup (cart_ids st0)
  ∧ cart_ids (addItemToCart (js "p3") (js "Bag") 50 (js "img3") None st0).2
    = [js "p1"; js "p2"; js "p1-Tamanho:-42"; js "p3"]
  ∧ NoDup (cart_ids
             (addItemToCart (js "p3") (js "Bag") 50 (js "img3") None st0).2)
  ∧ NoDup (cart_ids
             (addItemToCart (js "p1") (js "Shoe") 100 (js "img1")
                (Some (js "Tamanho: 42")) st0).2)
  ∧ cart_ids (updateItemQuantity (js "p1") (-1) st0).2
    = [js "p2"; js "p1-Tamanho:-42"]
  ∧ NoDup (cart_ids (updateItemQuantity (js "p1") (-1) st0).2)
  ∧ NoDup (cart_ids (updateItemQuantity (js "p2") (-1) st0).2).
Proof.
  cbv zeta.
  assert (Hnd :
    NoDup (cart_ids
             (mkState
                [CartItem.mk (js "p1") (js "Shoe") 100 (js "img1") 1 None;
                 CartItem.mk (js "p2") (js "Hat") 20 (js "img2") 2 None;
                 CartItem.mk (js "p1-Tamanho:-42") (js "Shoe") 100 (js "img1") 1
                             (Some (js "Tamanho: 42"))] []))).
  { apply (bool_decide_unpack _). vm_compute. exact I. }
  pose proof (cart_functions_keep_NoDup _ Hnd) as [Hadd Hupdate].
  split; [exact Hnd |]. split; [reflexivity |].
  split; [apply Hadd |]. split; [apply Hadd |]. split; [reflexivity |].
  split; apply Hupdate.
Defined.

(** X7: an update that leaves the found entry with a quantity above 0
    changes that quantity and nothing else: same keys, same length, every
    other entry and the favourites unchanged. *)
Theorem updateItemQuantity_only_quantity (id : jsstring) (change : float)
    (st : State) (i : nat) (item : CartItem.t) :
  list_find (λ item, CartItem.id item = id) (cart st) = Some (i, item) →
  (CartItem.quantity item + change <=? 0)%float = false →
  let st' := (updateItemQuantity id change st).2 in
  cart st'
  = <[i := CartItem.set_quantity (CartItem.quantity item + change)%float item]>
      (cart st)
  ∧ cart_ids st' = cart_ids st
  ∧ length (cart st') = length (cart st)
  ∧ (∀ j : nat, j ≠ i → cart st' !! j = cart st !! j)
  ∧ favorites st' = favorites st.
Proof.
  intros Hfind Hpos st'. subst st'.
  rewrite (updateItemQuantity_found _ _ _ _ _ Hfind). simpl. rewrite Hpos.
  apply list_find_Some in Hfind as (Hi & _).
  split; [reflexivity |]. split; [by apply ids_set_quantity |].
  split; [apply length_insert |].
  split; [intros j Hj; by apply list_lookup_insert_ne | reflexivity].
Qed.

Lemma updateItemQuantity_only_quantity_witness :
  let st0 :=
    mkState [CartItem.mk (js "p1") (js "Shoe") 100 (js "img1") 2 None;
             CartItem.mk (js "p2") (js "Hat") 20 (js "img2") 1 None] [] in
  list_find (λ item, CartItem.id item = js "p1") (cart st0)
  = Some (0, CartItem.mk (js "p1") (js "Shoe") 100 (js "img1") 2 None)
  ∧ (2 + -1 <=? 0)%float = false
  ∧ cart (updateItemQuantity (js "p1") (-1) st0).2
    = [CartItem.mk (js "p1") (js "Shoe") 100 (js "img1") 1 None;
       CartItem.mk (js "p2") (js "Hat") 20 (js "img2") 1 None].
Proof.
  cbv zeta.
  assert (Hfind :
    list_find (λ item, CartItem.id item = js "p1")
      (cart (mkState
               [CartItem.mk (js "p1") (js "Shoe") 100 (js "img1") 2 None;
                CartItem.mk (js "p2") (js "Hat") 20 (js "img2") 1 None] []))
    = Some (0, CartItem.mk (js "p1") (js "Shoe") 100 (js "img1") 2 None)).
  { reflexivity. }
  split; [exact Hfind |]. split; [reflexivity |].
  apply (updateItemQuantity_only_quantity (js "p1") (-1) _ _ _ Hfind eq_refl).
Defined.

Lemma filter_id_absent (key : jsstring) (l : list CartItem.t) :
  key ∉ CartItem.id <$> l →
  filter (λ cartItem, CartItem.id cartItem ≠ key) l = l.
Proof.
  intros Hnot. induction l as [| x l IH]; [reflexivity |].
  rewrite fmap_cons, not_elem_of_cons in Hnot. destruct Hnot as [Hx Hl].
  rewrite filter_cons, decide_True by (intros Heq; by apply Hx).
  by rewrite IH.
Qed.

(** X8: adding a product whose key is not in the cart and then decreasing
    that key once gives back the state before the two calls: the new entry
    has quantity 1, the decrease brings it to 0 and removes it. *)
Theorem add_then_decrease_restores (id name : jsstring) (price : float)
    (image : jsstring) (variant : option jsstring) (st : State) :
  cartItemId id variant ∉ cart_ids st →
  (updateItemQuantity (cartItemId id variant) (-1)
     (addItemToCart id name price image variant st).2).2
  = st.
Proof.
  intros Hnew. rewrite (addItemToCart_new _ _ _ _ _ _ Hnew). simpl.
  set (key := cartItemId id variant) in *.
  set (new := CartItem.mk key name price image 1%float variant).
  assert (Hfind :
    list_find (λ item, CartItem.id item = key) (cart st ++ [new])
    = Some (length (cart st), new)).
  { apply find_None in Hnew. rewrite (list_find_app_r _ _ _ Hnew). simpl.
    by rewrite decide_True by reflexivity. }
  rewrite (updateItemQuantity_found _ _ (set_cart (cart st ++ [new]) st) _ _ Hfind).
  simpl.
  change (1 + -1 <=? 0)%float with true. simpl.
  rewrite (filter_id_insert key _ _ new) by
    (first [by apply list_lookup_middle | reflexivity]).
  rewrite filter_app, filter_id_absent by exact Hnew.
  rewrite filter_cons, decide_False by (intros Hne; by apply Hne).
  rewrite filter_nil, app_nil_r. by destruct st.
Qed.

Lemma add_then_decrease_restores_witness :
  let st0 :=
    mkState [CartItem.mk (js "p1") (js "Shoe") 100 (js "img1") 1 None] [] in
  (cartItemId (js "p1") (Some (js "Tamanho: 42")) ∉ cart_ids st0)
  ∧ (updateItemQuantity (js "p1-Tamanho:-42") (-1)
       (addItemToCart (js "p1") (js "Shoe") 100 (js "img1")
          (Some (js "Tamanho: 42")) st0).2).2
    = st0.
Proof.
  cbv zeta.
  assert (Hnew :
    cartItemId (js "p1") (Some (js "Tamanho: 42"))
    ∉ cart_ids (mkState
                  [CartItem.mk (js "p1") (js "Shoe") 100 (js "img1") 1 None] [])).
  { apply (bool_decide_unpack _). vm_compute. exact I. }
  split; [exact Hnew |].
  apply (add_then_decrease_restores (js "p1") (js "Shoe") 100 (js "img1")
           (Some (js "Tamanho: 42")) _ Hnew).
Defined.

(** X9: on a key that is in the cart, the increase of
    [updateItemQuantity(key, 1)] and a repeated [addItemToCart] with that
    key are the same call, as long as the quantity plus 1 is above 0. *)
Theorem increase_is_repeated_add (id name : jsstring) (price : float)
    (image : jsstring) (variant : option jsstring) (st : State)
    (i : nat) (item : CartItem.t) :
  list_find (λ item, CartItem.id item = cartItemId id variant) (cart st)
  = Some (i, item) →
  (CartItem.quantity item + 1 <=? 0)%float = false →
  updateItemQuantity (cartItemId id variant) 1 st
  = addItemToCart id name price image variant st.
Proof.
  intros Hfind Hpos.
  rewrite (updateItemQuantity_found _ _ _ _ _ Hfind),
    (addItemToCart_existing _ _ _ _ _ _ _ _ Hfind).
  simpl. by rewrite Hpos.
Qed.

Lemma increase_is_repeated_add_witness :
  let st0 :=
    mkState [CartItem.mk (js "p1") (js "Shoe") 100 (js "img1") 1 None] [] in
  list_find (λ item, CartItem.id item = cartItemId (js "p1") None) (cart st0)
  = Some (0, CartItem.mk (js "p1") (js "Shoe") 100 (js "img1") 1 None)
  ∧ (1 + 1 <=? 0)%float = false
  ∧ updateItemQuantity (cartItemId (js "p1") None) 1 st0
    = addItemToCart (js "p1") (js "Boot") 5 (js "img7") None st0.
Proof.
  cbv zeta.
  assert (Hfind :
    list_find (λ item, CartItem.id item = cartItemId (js "p1") None)
      (cart (mkState
               [CartItem.mk (js "p1") (js "Shoe") 100 (js "img1") 1 None] []))
    = Some (0, CartItem.mk (js "p1") (js "Shoe") 100 (js "img1") 1 None)).
  { reflexivity. }
  split; [exact Hfind |]. split; [reflexivity |].
  apply (increase_is_repeated_add (js "p1") (js "Boot") 5 (js "img7") None _ _ _
           Hfind eq_refl).
Defined.

(** * Properties of the document functions *)

(** ** Class lists *)

Lemma contains_true (token : jsstring) (tokens : list jsstring) :
  classList.contains token tokens = true ↔ token ∈ tokens.
Proof. unfold classList.contains. apply bool_decide_eq_true. Qed.

Lemma contains_false (token : jsstring) (tokens : list jsstring) :
  classList.contains token tokens = false ↔ token ∉ tokens.
Proof. unfold classList.contains. apply bool_decide_eq_false. Qed.

Lemma elem_of_add (t token : jsstring) (tokens : list jsstring) :
  t ∈ classList.add token tokens ↔ t = token ∨ t ∈ tokens.
Proof.
  unfold classList.add.
  destruct (classList.contains token tokens) eqn:Hc.
  - apply contains_true in Hc. split; [tauto | intros [-> | ?]; done].
  - rewrite elem_of_app, list_elem_of_singleton. tauto.
Qed.

Lemma elem_of_remove (t token : jsstring) (tokens : list jsstring) :
  t ∈ classList.remove token tokens ↔ t ≠ token ∧ t ∈ tokens.
Proof. unfold classList.remove. by rewrite list_elem_of_filter. Qed.

Lemma elem_of_toggle (t token : jsstring) (tokens : list jsstring) :
  t ∈ classList.toggle token tokens
  ↔ (t = token ∧ token ∉ tokens) ∨ (t ≠ token ∧ t ∈ tokens).
Proof.
  unfold classList.toggle.
  destruct (classList.contains token tokens) eqn:Hc.
  - apply contains_true in Hc. rewrite elem_of_remove. tauto.
  - apply contains_false in Hc.
    rewrite elem_of_app, list_elem_of_singleton.
    destruct (decide (t = token)) as [-> | Hne]; tauto.
Qed.

(** ** The cart modal *)

(** X10: with both modal elements present, [toggleCartModal] flips
    [active] on the overlay and on the modal and keeps every other class
    of both; the cart and the favourites are unchanged. A second call
    gives both elements the classes they had at first. *)
Theorem toggleCartModal_flips (view : ModalView) (st : State)
    (overlay modal : list jsstring) :
  cartModalOverlay view = Some overlay → cartModal view = Some modal →
  let r1 := toggleCartModal view st in
  let r2 := toggleCartModal r1.2.1 r1.2.2 in
  r1.2.2 = st ∧ r2.2.2 = st
  ∧ (∃ overlay1 modal1,
       cartModalOverlay r1.2.1 = Some overlay1
       ∧ cartModal r1.2.1 = Some modal1
       ∧ (js "active" ∈ overlay1 ↔ js "active" ∉ overlay)
       ∧ (js "active" ∈ modal1 ↔ js "active" ∉ modal)
       ∧ ∀ t, t ≠ js "active" →
           (t ∈ overlay1 ↔ t ∈ overlay) ∧ (t ∈ modal1 ↔ t ∈ modal))
  ∧ (∃ overlay2 modal2,
       cartModalOverlay r2.2.1 = Some overlay2
       ∧ cartModal r2.2.1 = Some modal2
       ∧ ∀ t, (t ∈ overlay2 ↔ t ∈ overlay) ∧ (t ∈ modal2 ↔ t ∈ modal)).
Proof.
  intros Hoverlay Hmodal. destruct view as [o m]. simpl in Hoverlay, Hmodal.
  subst o m. unfold toggleCartModal, updateCart. simpl.
  set (a := js "active").
  split; [by destruct (classList.contains a overlay) |].
  split.
  { destruct (classList.contains a overlay);
      by destruct (classList.contains a (classList.toggle a overlay)). }
  split.
  - eexists _, _. split; [reflexivity |]. split; [reflexivity |].
    rewrite !elem_of_toggle.
    split; [tauto |]. split; [tauto |].
    intros t Hne. rewrite !elem_of_toggle. tauto.
  - eexists _, _. split; [reflexivity |]. split; [reflexivity |].
    intros t. rewrite !elem_of_toggle.
    destruct (decide (t = a)) as [-> | Hne];
      destruct (decide (a ∈ overlay));
      destruct (decide (a ∈ modal)); tauto.
Qed.

Lemma toggleCartModal_flips_witness :
  let view := mkModalView (Some [js "overlay"]) (Some [js "modal"; js "wide"]) in
  cartModalOverlay view = Some [js "overlay"]
  ∧ cartModal view = Some [js "modal"; js "wide"]
  ∧ (toggleCartModal view empty_state).2.2 = empty_state.
Proof.
  cbv zeta. split; [reflexivity |]. split; [reflexivity |].
  apply (toggleCartModal_flips
           (mkModalView (Some [js "overlay"]) (Some [js "modal"; js "wide"]))
           empty_state _ _ eq_refl eq_refl).
Defined.

(** ** Favourite icons *)

Lemma classes_of_insert (m : gmap nat (list jsstring)) (n n' : nat)
    (tokens : list jsstring) :
  classes_of (<[n := tokens]> m) n'
  = if decide (n = n') then tokens else classes_of m n'.
Proof.
  unfold classes_of. case_decide as Hn.
  - subst. by rewrite lookup_insert_eq.
  - by rewrite lookup_insert_ne.
Qed.

Lemma elem_of_icon_tokens (favorited : bool) (tokens : list jsstring)
    (t : jsstring) :
  t ∈ icon_tokens favorited tokens
  ↔ (t = js "fas" ∧ favorited = true) ∨ (t = js "far" ∧ favorited = false)
    ∨ (t ≠ js "fas" ∧ t ≠ js "far" ∧ t ∈ tokens).
Proof.
  assert (Hdiff : js "fas" ≠ js "far") by discriminate.
  unfold icon_tokens. destruct favorited;
    rewrite elem_of_add, elem_of_remove.
  - destruct (decide (t = js "fas")) as [-> | ?]; [tauto |].
    destruct (decide (t = js "far")) as [-> | ?]; [| tauto].
    split; [tauto |]. intros [[? ?] | [[? ?] | (? & ? & ?)]]; done.
  - destruct (decide (t = js "far")) as [-> | ?]; [tauto |].
    destruct (decide (t = js "fas")) as [-> | ?]; [| tauto].
    split; [tauto |]. intros [[? ?] | [[? ?] | (? & ? & ?)]]; done.
Qed.

Lemma updateFavoriteIcon_other (st : State) (view : IconView)
    (element : ProductElement) (node : nat) :
  icon_of element ≠ Some node →
  icon_classes (updateFavoriteIcon st view element) !! node
  = icon_classes view !! node.
Proof.
  unfold updateFavoriteIcon, icon_of.
  destruct (iconContainer element) as [[container [icon |]] |]; try done.
  intros Hne. assert (icon ≠ node) by congruence.
  destruct (isFavorited _ st); simpl; by rewrite lookup_insert_ne.
Qed.

Lemma updateFavoriteIcon_icon (st : State) (view : IconView)
    (element : ProductElement) (container icon : nat) :
  iconContainer element = Some (container, Some icon) →
  classes_of (icon_classes (updateFavoriteIcon st view element)) icon
  = icon_tokens (isFavorited (dataset_id element) st)
                (classes_of (icon_classes view) icon).
Proof.
  intros Hc. unfold updateFavoriteIcon, icon_tokens. rewrite Hc.
  destruct (isFavorited _ st); simpl;
    by rewrite classes_of_insert, decide_True by reflexivity.
Qed.

Lemma updateFavoriteIconState_snoc (st : State) (l : list ProductElement)
    (x : ProductElement) (view : IconView) :
  updateFavoriteIconState st (l ++ [x]) view
  = updateFavoriteIcon st (updateFavoriteIconState st l view) x.
Proof. unfold updateFavoriteIconState. by rewrite foldl_app. Qed.

(** A node that is the icon of no listed element keeps its classes. *)
Lemma updateFavoriteIconState_other (st : State) (l : list ProductElement)
    (view : IconView) (node : nat) :
  node ∉ omap icon_of l →
  icon_classes (updateFavoriteIconState st l view) !! node
  = icon_classes view !! node.
Proof.
  induction l as [| x l IH] using rev_ind; [done |].
  rewrite omap_app, not_elem_of_app. intros [Hl Hx].
  rewrite updateFavoriteIconState_snoc, updateFavoriteIcon_other; [by apply IH |].
  intros Hicon. apply Hx. simpl. rewrite Hicon. left.
Qed.

(** X11: after [updateFavoriteIconState] every icon it has written carries
    exactly one of the classes [fas] (filled) and [far] (empty), also when
    several product elements share an icon. *)
Theorem updateFavoriteIconState_one_heart (st : State)
    (productElements : list ProductElement) (view : IconView)
    (element : ProductElement) (container icon : nat) :
  element ∈ productElements →
  iconContainer element = Some (container, Some icon) →
  let tokens :=
    classes_of (icon_classes (updateFavoriteIconState st productElements view))
               icon in
  js "fas" ∈ tokens ↔ js "far" ∉ tokens.
Proof.
  intros Hin Hc tokens. subst tokens. revert Hin.
  induction productElements as [| x l IH] using rev_ind;
    [by intros ?%elem_of_nil |].
  intros Hin. rewrite updateFavoriteIconState_snoc.
  destruct (decide (icon_of x = Some icon)) as [Hx | Hx].
  - unfold icon_of in Hx.
    destruct (iconContainer x) as [[cx [ix |]] |] eqn:Hcx; try done.
    injection Hx as ->.
    rewrite (updateFavoriteIcon_icon _ _ _ _ _ Hcx), !elem_of_icon_tokens.
    assert (js "fas" ≠ js "far") by discriminate.
    destruct (isFavorited _ st); intuition congruence.
  - unfold classes_of at 1 2. rewrite (updateFavoriteIcon_other _ _ _ _ Hx).
    apply IH. apply elem_of_app in Hin as [Hin | Hin]; [done |].
    apply list_elem_of_singleton in Hin. subst x.
    exfalso. apply Hx. unfold icon_of. by rewrite Hc.
Qed.

Lemma updateFavoriteIconState_one_heart_witness :
  let elements :=
    [mkProductElement (js "p1") (Some (10, Some 11));
     mkProductElement (js "p2") (Some (10, Some 11))] in
  let st := mkState [] [FavoriteItem.mk (js "p1") (js "Shoe") 100 (js "img")] in
  mkProductElement (js "p1") (Some (10, Some 11)) ∈ elements
  ∧ (js "fas"
       ∈ classes_of
           (icon_classes
              (updateFavoriteIconState st elements
                 (mkIconView {[ 11 := [js "fas"; js "far"] ]} ∅)))
           11
     ↔ js "far"
       ∉ classes_of
           (icon_classes
              (updateFavoriteIconState st elements
                 (mkIconView {[ 11 := [js "fas"; js "far"] ]} ∅)))
           11).
Proof.
  cbv zeta.
  assert (Hin : mkProductElement (js "p1") (Some (10, Some 11))
                ∈ [mkProductElement (js "p1") (Some (10, Some 11));
                   mkProductElement (js "p2") (Some (10, Some 11))]).
  { left. }
  split; [exact Hin |].
  apply (updateFavoriteIconState_one_heart _ _ _ _ 10 11 Hin eq_refl).
Defined.

(** With no icon shared, the classes of an element's icon after the pass
    are those of one step on the initial classes. *)
Lemma updateFavoriteIconState_tokens (st : State)
    (productElements : list ProductElement) (view : IconView)
    (element : ProductElement) (container icon : nat) :
  NoDup (omap icon_of productElements) →
  element ∈ productElements →
  iconContainer element = Some (container, Some icon) →
  classes_of (icon_classes (updateFavoriteIconState st productElements view)) icon
  = icon_tokens (isFavorited (dataset_id element) st)
                (classes_of (icon_classes view) icon).
Proof.
  intros Hnd Hin Hc. revert Hnd Hin.
  induction productElements as [| x l IH] using rev_ind;
    [by intros _ ?%elem_of_nil |].
  rewrite omap_app. intros (Hl & Hdisj & _)%NoDup_app Hin.
  rewrite updateFavoriteIconState_snoc.
  assert (Hicon : icon_of element = Some icon).
  { unfold icon_of. by rewrite Hc. }
  apply elem_of_app in Hin as [Hin | Hin].
  - assert (Hx : icon_of x ≠ Some icon).
    { intros Hx. apply (Hdisj icon).
      - apply list_elem_of_omap. by exists element.
      - simpl. rewrite Hx. left. }
    unfold classes_of at 1. rewrite (updateFavoriteIcon_other _ _ _ _ Hx).
    by apply IH.
  - apply list_elem_of_singleton in Hin. subst x.
    rewrite (updateFavoriteIcon_icon _ _ _ _ _ Hc). f_equal.
    unfold classes_of. rewrite updateFavoriteIconState_other; [done |].
    intros Hl'. apply (Hdisj icon Hl'). simpl. rewrite Hicon. left.
Qed.

(** X12: when no two listed product elements share an icon, after
    [updateFavoriteIconState] the icon of each element is filled ([fas])
    exactly when the element's id is favourited and empty ([far]) exactly
    when it is not; its other classes are kept, and a node that is no
    listed icon keeps all its classes. *)
Theorem updateFavoriteIconState_shows_favorites (st : State)
    (productElements : list ProductElement) (view : IconView) :
  NoDup (omap icon_of productElements) →
  let view' := updateFavoriteIconState st productElements view in
  (∀ element container icon,
     element ∈ productElements →
     iconContainer element = Some (container, Some icon) →
     (js "fas" ∈ classes_of (icon_classes view') icon
      ↔ isFavorited (dataset_id element) st = true)
     ∧ (js "far" ∈ classes_of (icon_classes view') icon
        ↔ isFavorited (dataset_id element) st = false)
     ∧ ∀ t, t ≠ js "fas" → t ≠ js "far" →
         (t ∈ classes_of (icon_classes view') icon
          ↔ t ∈ classes_of (icon_classes view) icon))
  ∧ ∀ node, node ∉ omap icon_of productElements →
      icon_classes view' !! node = icon_classes view !! node.
Proof.
  intros Hnd view'. subst view'.
  split; [| intros node; apply updateFavoriteIconState_other].
  intros element container icon Hin Hc.
  rewrite (updateFavoriteIconState_tokens _ _ _ _ _ _ Hnd Hin Hc).
  assert (js "fas" ≠ js "far") by discriminate.
  split; [| split].
  - rewrite elem_of_icon_tokens. destruct (isFavorited _ st); intuition congruence.
  - rewrite elem_of_icon_tokens. destruct (isFavorited _ st); intuition congruence.
  - intros t Hfas Hfar. rewrite elem_of_icon_tokens. intuition congruence.
Qed.

Lemma updateFavoriteIconState_shows_favorites_witness :
  let elements :=
    [mkProductElement (js "p1") (Some (10, Some 11));
     mkProductElement (js "p2") (Some (20, Some 21));
     mkProductElement (js "p3") None] in
  let st := mkState [] [FavoriteItem.mk (js "p1") (js "Shoe") 100 (js "img")] in
  NoDup (omap icon_of elements)
  ∧ ∀ node, node ∉ omap icon_of elements →
      icon_classes
        (updateFavoriteIconState st elements
           (mkIconView {[ 11 := [js "far"] ]} ∅)) !! node
      = ({[ 11 := [js "far"] ]} : gmap nat (list jsstring)) !! node.
Proof.
  cbv zeta.
  assert (Hnd : NoDup (omap icon_of
                  [mkProductElement (js "p1") (Some (10, Some 11));
                   mkProductElement (js "p2") (Some (20, Some 21));
                   mkProductElement (js "p3") None])).
  { apply (bool_decide_unpack _). vm_compute. exact I. }
  split; [exact Hnd |].
  exact (proj2 (updateFavoriteIconState_shows_favorites
                  (mkState [] [FavoriteItem.mk (js "p1") (js "Shoe") 100 (js "img")])
                  _ (mkIconView {[ 11 := [js "far"] ]} ∅) Hnd)).
Defined.




(** ** Variant selectors *)

(** Removing [selected] from the listed nodes, one after the other. *)
Lemma unselect_classes (selected : list nat)
    (classes : gmap nat (list jsstring)) (node : nat) (t : jsstring) :
  t ∈ classes_of
        (foldl
           (λ m n, <[n := classList.remove (js "selected") (classes_of m n)]> m)
           classes selected)
        node
  ↔ t ∈ classes_of classes node ∧ (node ∈ selected → t ≠ js "selected").
Proof.
  revert classes. induction selected as [| n0 selected IH]; intros classes.
  - simpl. split; [intros Ht; split; [done | by intros ?%elem_of_nil] | tauto].
  - simpl. rewrite IH, classes_of_insert, elem_of_cons.
    case_decide as Hn.
    + subst n0. rewrite elem_of_remove. intuition congruence.
    + intuition congruence.
Qed.

(** X14: a click on an element that has the option class leaves the
    target selected and no other node below the container selected; every
    class other than [selected] stays where it was, on every node. *)
Theorem variantSelectorClick_selects_one (optionClass : jsstring)
    (descendants : list nat) (target : nat)
    (classes : gmap nat (list jsstring)) :
  optionClass ∈ classes_of classes target →
  let classes' := variantSelectorClick optionClass descendants target classes in
  js "selected" ∈ classes_of classes' target
  ∧ (∀ node, node ∈ descendants → node ≠ target →
       js "selected" ∉ classes_of classes' node)
  ∧ ∀ node t, t ≠ js "selected" →
      (t ∈ classes_of classes' node ↔ t ∈ classes_of classes node).
Proof.
  intros Hoption%contains_true classes'. subst classes'.
  unfold variantSelectorClick. rewrite Hoption.
  split; [| split].
  - rewrite classes_of_insert, decide_True by reflexivity.
    apply elem_of_add. by left.
  - intros node Hin Hne.
    rewrite classes_of_insert, decide_False by done.
    rewrite unselect_classes, list_elem_of_filter, contains_true.
    tauto.
  - intros node t Hne. rewrite classes_of_insert. case_decide as Hn.
    + subst node. rewrite elem_of_add, unselect_classes. tauto.
    + rewrite unselect_classes. tauto.
Qed.

Lemma variantSelectorClick_selects_one_witness :
  let classes : gmap nat (list jsstring) :=
    {[ 1 := [js "size-option"; js "selected"];
       2 := [js "size-option"];
       3 := [js "label"; js "selected"] ]} in
  js "size-option" ∈ classes_of classes 2
  ∧ js "selected"
    ∈ classes_of (variantSelectorClick (js "size-option") [1; 2; 3] 2 classes) 2.
Proof.
  cbv zeta.
  assert (Hoption :
    js "size-option"
    ∈ classes_of
        ({[ 1 := [js "size-option"; js "selected"];
            2 := [js "size-option"];
            3 := [js "label"; js "selected"] ]} : gmap nat (list jsstring)) 2).
  { apply (bool_decide_unpack _). vm_compute. exact I. }
  split; [exact Hoption |].
  exact (proj1 (variantSelectorClick_selects_one (js "size-option") [1; 2; 3] 2
                  _ Hoption)).
Defined.

(** ** The click listener *)

Lemma toggleCartModal_state (view : ModalView) (st : State) :
  (toggleCartModal view st).2.2 = st.
Proof.
  unfold toggleCartModal, updateCart.
  destruct (cartModalOverlay view) as [overlay |],
    (cartModal view) as [modal |]; try done.
  simpl. by destruct (classList.contains _ overlay).
Qed.

(** The variant that the listener builds is [null] or a non-empty text,
    so the key always carries the suffix of the selected option. *)
Lemma cartItemId_selectedVariant (id : jsstring) (e : ClickEvent) :
  cartItemId id (selectedVariant e) = id ++ variant_suffix e.
Proof.
  unfold selectedVariant, variant_suffix, cartItemId, replace_whitespace.
  destruct (bandEl e) as [band |], (sizeEl e) as [size |];
    rewrite ?fmap_app; try reflexivity.
  by rewrite app_nil_r.
Qed.

(** X15: a click on an add-to-cart button inside a product-details element
    puts the product in the cart under the key made of its id and the
    selected option: [id-Pulseira:-band] when a band is active, else
    [id-Tamanho:-size] when a size is selected, else [id] (white space of
    the band or size replaced by [-]). A key not yet in the cart gets a new
    last entry with quantity 1; the favourites and the removed cards are
    untouched. *)
Theorem clickAddToCart_key (e : ClickEvent) (p : Page) (product : ProductData) :
  in_add_to_cart_btn e = true →
  closest_product_details e = Some product →
  let key := product_id product ++ variant_suffix e in
  ∃ p1, clickAddToCart e p = Some p1
    ∧ key ∈ cart_ids (page_state p1)
    ∧ (key ∉ cart_ids (page_state p) →
       cart (page_state p1)
       = cart (page_state p)
         ++ [CartItem.mk key (product_name product) (product_price product)
               (product_image product) 1%float (selectedVariant e)])
    ∧ favorites (page_state p1) = favorites (page_state p)
    ∧ page_removed p1 = page_removed p.
Proof.
  intros Hbtn Hproduct key. unfold clickAddToCart. rewrite Hbtn, Hproduct.
  eexists. split; [reflexivity |]. simpl. rewrite toggleCartModal_state.
  subst key. rewrite <- cartItemId_selectedVariant.
  set (id := product_id product). set (variant := selectedVariant e).
  destruct (decide (cartItemId id variant ∈ cart_ids (page_state p)))
    as [Hin | Hnew].
  - destruct (find_is_Some _ _ Hin) as (i & found & Hfind).
    pose proof Hfind as (Hi & _)%list_find_Some.
    rewrite (addItemToCart_existing _ _ _ _ _ _ _ _ Hfind). simpl.
    rewrite (ids_set_quantity _ _ _ _ Hi). done.
  - rewrite (addItemToCart_new _ _ _ _ _ _ Hnew). simpl.
    rewrite fmap_app, elem_of_app. simpl.
    split; [right; left |]. done.
Qed.

Lemma clickAddToCart_key_witness :
  let e :=
    mkClickEvent true (Some (mkProductData (js "p1") (js "Shoe") 100 (js "img")))
      (Some (Some (js "42"))) None false None false None None false false in
  let p := mkPage empty_state (mkModalView (Some []) (Some [])) [] in
  in_add_to_cart_btn e = true
  ∧ closest_product_details e
    = Some (mkProductData (js "p1") (js "Shoe") 100 (js "img"))
  ∧ ∃ p1, clickAddToCart e p = Some p1
      ∧ js "p1-Tamanho:-42" ∈ cart_ids (page_state p1).
Proof.
  cbv zeta. split; [reflexivity |]. split; [reflexivity |].
  destruct (clickAddToCart_key
              (mkClickEvent true
                 (Some (mkProductData (js "p1") (js "Shoe") 100 (js "img")))
                 (Some (Some (js "42"))) None false None false None None
                 false false)
              (mkPage empty_state (mkModalView (Some []) (Some [])) [])
              _ eq_refl eq_refl) as (p1 & Hp1 & Hkey & _).
  exists p1. split; [exact Hp1 | exact Hkey].
Defined.

Lemma toggleFavorite_keeps_NoDup (id name : jsstring) (price : float)
    (image : jsstring) (st : State) :
  NoDup (FavoriteItem.id <$> favorites st) →
  NoDup (FavoriteItem.id <$> favorites (toggleFavorite id name price image st).2).
Proof.
  intros Hnd. destruct (isFavorited id st) eqn:Hmem.
  - destruct (toggleFavorite_remove id name price image st Hmem)
      as (i & item & _ & _ & _ & ->).
    eapply sublist_NoDup; [exact Hnd |].
    rewrite list_fmap_delete. apply sublist_delete.
  - rewrite (toggleFavorite_add _ _ _ _ _ Hmem), fmap_app.
    apply NoDup_app. split; [exact Hnd |]. split; [| apply NoDup_singleton].
    intros x Hx Hx'. apply list_elem_of_singleton in Hx'. subst x.
    by apply isFavorited_false in Hmem.
Qed.

Lemma updateItemQuantity_keeps_NoDup (id : jsstring) (change : float)
    (st : State) :
  NoDup (cart_ids st) → NoDup (cart_ids (updateItemQuantity id change st).2).
Proof.
  intros Hnd.
  destruct (list_find (λ item, CartItem.id item = id) (cart st))
    as [[i item] |] eqn:Hfind.
  - rewrite (updateItemQuantity_found _ _ _ _ _ Hfind). simpl.
    pose proof Hfind as (Hi & _)%list_find_Some.
    destruct (_ <=? 0)%float.
    + eapply sublist_NoDup; [exact Hnd |].
      erewrite <- (ids_set_quantity (cart st)) by exact Hi.
      apply fmap_sublist, sublist_filter.
    + by rewrite (ids_set_quantity _ _ _ _ Hi).
  - unfold updateItemQuantity. by rewrite Hfind.
Qed.

Lemma addItemToCart_favorites (id name : jsstring) (price : float)
    (image : jsstring) (variant : option jsstring) (st : State) :
  favorites (addItemToCart id name price image variant st).2 = favorites st.
Proof.
  unfold addItemToCart.
  by destruct (list_find _ (cart st)) as [[i item] |].
Qed.

Lemma updateItemQuantity_favorites (id : jsstring) (change : float)
    (st : State) :
  favorites (updateItemQuantity id change st).2 = favorites st.
Proof.
  unfold updateItemQuantity.
  by destruct (list_find _ (cart st)) as [[i item] |].
Qed.

Lemma updateItemQuantity_dataset_unique (id : option jsstring)
    (change : float) (st : State) :
  unique_ids st → unique_ids (updateItemQuantity_dataset id change st).
Proof.
  intros [Hcart Hfav]. destruct id as [id |]; [| done]. simpl. split.
  - by apply updateItemQuantity_keeps_NoDup.
  - by rewrite updateItemQuantity_favorites.
Qed.

(** X16: the click listener keeps both collections free of duplicates:
    when the cart has at most one entry per key and the favourites at most
    one per id, the same holds after the listener has handled any click,
    whichever of its three blocks run. *)
Theorem onBodyClick_keeps_unique_ids (e : ClickEvent) (p : Page) :
  NoDup (cart_ids (page_state p)) →
  NoDup (FavoriteItem.id <$> favorites (page_state p)) →
  NoDup (cart_ids (page_state (onBodyClick e p)))
  ∧ NoDup (FavoriteItem.id <$> favorites (page_state (onBodyClick e p))).
Proof.
  intros Hcart Hfav.
  assert (Hp : unique_ids (page_state p)) by done. clear Hcart Hfav.
  assert (Hadd : ∀ p1, clickAddToCart e p = Some p1 → unique_ids (page_state p1)).
  { unfold clickAddToCart. intros p1.
    destruct (in_add_to_cart_btn e); [| by intros [= <-]].
    destruct (closest_product_details e) as [product |]; [| done].
    intros [= <-]. simpl. rewrite toggleCartModal_state.
    destruct Hp as [Hcart Hfav]. split.
    - by apply addItemToCart_NoDup.
    - by rewrite addItemToCart_favorites. }
  assert (Hfavorite : ∀ p1 p2, unique_ids (page_state p1) →
            clickFavorite e p1 = Some p2 → unique_ids (page_state p2)).
  { unfold clickFavorite. intros p1 p2 [Hcart Hfav].
    destruct (in_favorite_icon e); [| by intros [= <-]].
    destruct (closest_product e) as [product |]; [| done].
    intros [= <-]. simpl. split.
    - by rewrite (proj2 (toggleFavorite_result _ _ _ _ _)).
    - by apply toggleFavorite_keeps_NoDup. }
  assert (Hitem : ∀ p2, unique_ids (page_state p2) →
            unique_ids (page_state (clickCartItem e p2))).
  { unfold clickCartItem. intros p2 Hp2.
    destruct (closest_cart_item e) as [id |]; [| done]. simpl.
    destruct (quantity_increase e), (quantity_decrease e);
      repeat apply updateItemQuantity_dataset_unique; done. }
  unfold onBodyClick.
  destruct (clickAddToCart e p) as [p1 |] eqn:H1; [| exact Hp].
  specialize (Hadd p1 eq_refl).
  destruct (clickFavorite e p1) as [p2 |] eqn:H2; [| exact Hadd].
  apply Hitem. by apply (Hfavorite p1).
Qed.

Lemma onBodyClick_keeps_unique_ids_witness :
  let e :=
    mkClickEvent true
      (Some (mkProductData (js "p3") (js "Bag") 50 (js "img3")))
      (Some (Some (js "M"))) None
      true (Some (mkProductData (js "p2") (js "Hat") 20 (js "img2")))
      true (Some 7) (Some (Some (js "p1"))) false true in
  let p :=
    mkPage
      (mkState
         [CartItem.mk (js "p1") (js "Shoe") 100 (js "img1") 1 None;
          CartItem.mk (js "p2") (js "Hat") 20 (js "img2") 2 None]
         [FavoriteItem.mk (js "p1") (js "Shoe") 100 (js "img1");
          FavoriteItem.mk (js "p2") (js "Hat") 20 (js "img2")])
      (mkModalView (Some []) (Some [])) [] in
  NoDup (cart_ids (page_state p))
  ∧ NoDup (FavoriteItem.id <$> favorites (page_state p))
  ∧ cart_ids (page_state (onBodyClick e p)) = [js "p2"; js "p3-Tamanho:-M"]
  ∧ FavoriteItem.id <$> favorites (page_state (onBodyClick e p)) = [js "p1"]
  ∧ NoDup (cart_ids (page_state (onBodyClick e p)))
  ∧ NoDup (FavoriteItem.id <$> favorites (page_state (onBodyClick e p))).
Proof.
  cbv zeta.
  match goal with
  | |- NoDup (cart_ids (page_state ?p)) ∧ _ ∧ cart_ids (page_state (onBodyClick ?e _)) = _ ∧ _ =>
      assert (Hcart : NoDup (cart_ids (page_state p)))
        by (apply (bool_decide_unpack _); vm_compute; exact I);
      assert (Hfav : NoDup (FavoriteItem.id <$> favorites (page_state p)))
        by (apply (bool_decide_unpack _); vm_compute; exact I);
      pose proof (onBodyClick_keeps_unique_ids e p Hcart Hfav) as Hafter
  end.
  split; [exact Hcart |]. split; [exact Hfav |].
  split; [reflexivity |]. split; [reflexivity |]. exact Hafter.
Defined.

(** X17: a click on the decrease button of a cart item whose entry has
    quantity 1 takes every entry with that id out of the cart; the modal,
    the favourites and the removed cards are as before. *)
Theorem onBodyClick_decrease_last_unit (e : ClickEvent) (p : Page)
    (id : jsstring) (i : nat) (item : CartItem.t) :
  in_add_to_cart_btn e = false → in_favorite_icon e = false →
  closest_cart_item e = Some (Some id) →
  quantity_increase e = false → quantity_decrease e = true →
  list_find (λ item, CartItem.id item = id) (cart (page_state p))
  = Some (i, item) →
  CartItem.quantity item = 1%float →
  let p' := onBodyClick e p in
  cart (page_state p')
  = filter (λ cartItem, CartItem.id cartItem ≠ id) (cart (page_state p))
  ∧ (id ∉ cart_ids (page_state p'))
  ∧ favorites (page_state p') = favorites (page_state p)
  ∧ page_modal p' = page_modal p
  ∧ page_removed p' = page_removed p.
Proof.
  intros Hadd Hfav Hitem Hinc Hdec Hfind Hone p'. subst p'.
  unfold onBodyClick, clickAddToCart, clickFavorite, clickCartItem.
  rewrite Hadd, Hfav, Hitem, Hinc, Hdec. simpl.
  assert (Hle : (CartItem.quantity item + -1 <=? 0)%float = true).
  { rewrite Hone. reflexivity. }
  rewrite (updateItemQuantity_removal _ _ _ _ _ Hfind Hle).
  split; [reflexivity |]. split; [apply filter_id_not_elem |].
  rewrite (updateItemQuantity_found _ _ _ _ _ Hfind). done.
Qed.

Lemma onBodyClick_decrease_last_unit_witness :
  let e :=
    mkClickEvent false None None None false None false None
      (Some (Some (js "p1"))) false true in
  let p :=
    mkPage
      (mkState [CartItem.mk (js "p1") (js "Shoe") 100 (js "img") 1 None;
                CartItem.mk (js "p2") (js "Hat") 20 (js "img2") 1 None] [])
      (mkModalView (Some [js "active"]) (Some [js "active"])) [] in
  list_find (λ item, CartItem.id item = js "p1") (cart (page_state p))
  = Some (0, CartItem.mk (js "p1") (js "Shoe") 100 (js "img") 1 None)
  ∧ cart (page_state (onBodyClick e p))
    = [CartItem.mk (js "p2") (js "Hat") 20 (js "img2") 1 None].
Proof.
  cbv zeta. split; [reflexivity |].
  exact (proj1 (onBodyClick_decrease_last_unit
                  (mkClickEvent false None None None false None false None
                     (Some (Some (js "p1"))) false true)
                  (mkPage
                     (mkState
                        [CartItem.mk (js "p1") (js "Shoe") 100 (js "img") 1 None;
                         CartItem.mk (js "p2") (js "Hat") 20 (js "img2") 1 None] [])
                     (mkModalView (Some [js "active"]) (Some [js "active"])) [])
                  (js "p1") 0 _ eq_refl eq_refl eq_refl eq_refl eq_refl
                  eq_refl eq_refl)).
Defined.

(** X18: on the favourites page a click on a favourite icon removes the
    card of the click from the document whatever the toggle did: also
    when the product was not favourited and the click has just added it.
    The cart and the modal are untouched. *)
Theorem clickFavorite_removes_card (e : ClickEvent) (p : Page)
    (product : ProductData) (card : nat) :
  in_favorite_icon e = true →
  closest_product e = Some product →
  favoritesContainer e = true →
  closest_favorite_card e = Some card →
  ∃ p2, clickFavorite e p = Some p2
    ∧ page_removed p2 = page_removed p ++ [card]
    ∧ (isFavorited (product_id product) (page_state p) = false →
       isFavorited (product_id product) (page_state p2) = true)
    ∧ cart (page_state p2) = cart (page_state p)
    ∧ page_modal p2 = page_modal p.
Proof.
  intros Hicon Hproduct Hpage Hcard. unfold clickFavorite.
  rewrite Hicon, Hproduct, Hpage, Hcard.
  eexists. split; [reflexivity |]. simpl.
  split; [reflexivity |]. split; [| split; [apply toggleFavorite_result | done]].
  intros Hnot. apply isFavorited_true.
  rewrite (toggleFavorite_add _ _ _ _ _ Hnot), fmap_app, elem_of_app.
  right. simpl. left.
Qed.

Lemma clickFavorite_removes_card_witness :
  let e :=
    mkClickEvent false None None None
      true (Some (mkProductData (js "p1") (js "Shoe") 100 (js "img")))
      true (Some 7) None false false in
  let p := mkPage empty_state (mkModalView None None) [] in
  in_favorite_icon e = true
  ∧ ∃ p2, clickFavorite e p = Some p2 ∧ page_removed p2 = [7].
Proof.
  cbv zeta. split; [reflexivity |].
  destruct (clickFavorite_removes_card
              (mkClickEvent false None None None
                 true (Some (mkProductData (js "p1") (js "Shoe") 100 (js "img")))
                 true (Some 7) None false false)
              (mkPage empty_state (mkModalView None None) [])
              _ 7 eq_refl eq_refl eq_refl eq_refl) as (p2 & Hp2 & Hremoved & _).
  exists p2. split; [exact Hp2 | exact Hremoved].
Defined.

(** ** Amounts *)

Lemma uint_units_digits (d : Decimal.uint) : Forall is_digit (uint_units d).
Proof.
  induction d; simpl; constructor; try done; unfold is_digit; lia.
Qed.

Lemma decimal_digits (n : N) : Forall is_digit (decimal n).
Proof. apply uint_units_digits. Qed.

Lemma decimal_nonempty (n : N) : decimal n ≠ [].
Proof.
  unfold decimal. destruct n as [| p]; [discriminate |].
  simpl. pose proof (DecimalPos.Unsigned.to_uint_nonnil p) as Hp.
  by destruct (Pos.to_uint p).
Qed.

(** The first [c] of a text that has none before it. *)
Lemma replace_first_app (c c' : N) (before after : jsstring) :
  Forall (λ x, x ≠ c) before →
  replace_first c c' (before ++ c :: after) = before ++ c' :: after.
Proof.
  induction 1 as [| x before Hx _ IH]; simpl.
  - by rewrite N.eqb_refl.
  - apply N.eqb_neq in Hx. by rewrite Hx, IH.
Qed.

(** A text of at least three characters is a non-empty head and its last
    two characters. *)
Lemma split_last_two (l : jsstring) :
  3 ≤ length l →
  ∃ a d1 d2, a ≠ [] ∧ take (length l - 2) l = a
    ∧ drop (length l - 2) l = [d1; d2] ∧ l = a ++ [d1; d2].
Proof.
  intros Hlen.
  pose proof (take_drop (length l - 2) l) as Hsplit.
  assert (Hdrop : length (drop (length l - 2) l) = 2).
  { rewrite length_drop. lia. }
  destruct (drop (length l - 2) l) as [| d1 [| d2 [| ? ?]]]; try done.
  exists (take (length l - 2) l), d1, d2.
  split; [| done].
  intros Hnil. apply (f_equal length) in Hnil.
  rewrite length_take in Hnil. simpl in Hnil. lia.
Qed.

(** X19: for a cart whose total is a finite number below [10^21] in
    magnitude, the text that [renderSubtotal] writes is ["R$ "], a minus
    sign when the total is negative, at least one digit, a comma, and
    exactly two digits. *)
Theorem renderSubtotal_text_format (element : jsstring)
    (cart : list CartItem.t) :
  let total := renderSubtotal_total cart in
  PrimFloat.is_nan total = false →
  PrimFloat.is_infinity total = false →
  (1e21 <=? PrimFloat.abs total)%float = false →
  ∃ int d1 d2,
    renderSubtotal (Some element) cart
    = Some (js "R$ " ++ (if (total <? 0)%float then js "-" else [])
            ++ int ++ [0x2C%N; d1; d2])
    ∧ int ≠ [] ∧ Forall is_digit int ∧ is_digit d1 ∧ is_digit d2.
Proof.
  intros total Hnan Hinf Hsmall. unfold renderSubtotal, toFixed.
  fold total. rewrite Hnan, Hinf, Hsmall.
  destruct (magnitude (PrimFloat.abs total)) as [m e].
  set (digits := decimal (scaled_round 2 m e)).
  set (padded := replicate (3 - length digits) 0x30%N ++ digits).
  assert (Hpadded : Forall is_digit padded).
  { apply Forall_app. split; [| apply decimal_digits].
    apply Forall_replicate. unfold is_digit. lia. }
  assert (Hlen : 3 ≤ length padded).
  { unfold padded. rewrite length_app, length_replicate. lia. }
  destruct (split_last_two padded Hlen) as (a & d1 & d2 & Ha & Htake & Hdrop & Heq).
  rewrite Htake, Hdrop. rewrite Heq in Hpadded.
  apply Forall_app in Hpadded as [Hint Hlast].
  apply Forall_cons in Hlast as [Hd1 Hlast].
  apply Forall_cons in Hlast as [Hd2 _].
  exists a, d1, d2. split; [| done].
  f_equal. f_equal.
  change ([46%N] ++ [d1; d2]) with (46%N :: [d1; d2]).
  rewrite (app_assoc _ a), replace_first_app.
  - by rewrite <- app_assoc.
  - apply Forall_app. split.
    + destruct (total <? 0)%float; [| constructor].
      repeat constructor. discriminate.
    + eapply Forall_impl; [exact Hint |].
      intros x [Hlo Hhi] ->. revert Hlo. apply N.lt_nge. reflexivity.
Qed.

Lemma renderSubtotal_text_format_witness :
  let cart :=
    [CartItem.mk (js "p1") (js "Shoe") 199.5 (js "img1") 3 None;
     CartItem.mk (js "p2") (js "Hat") 20.125 (js "img2") 1 None] in
  PrimFloat.is_nan (renderSubtotal_total cart) = false
  ∧ renderSubtotal (Some []) cart = Some (js "R$ 618,63")
  ∧ ∃ int d1 d2,
      renderSubtotal (Some []) cart
      = Some (js "R$ "
              ++ (if (renderSubtotal_total cart <? 0)%float then js "-" else [])
              ++ int ++ [0x2C%N; d1; d2])
      ∧ int ≠ [] ∧ Forall is_digit int ∧ is_digit d1 ∧ is_digit d2.
Proof.
  cbv zeta. split; [reflexivity |]. split; [vm_compute; reflexivity |].
  apply (renderSubtotal_text_format []
           [CartItem.mk (js "p1") (js "Shoe") 199.5 (js "img1") 3 None;
            CartItem.mk (js "p2") (js "Hat") 20.125 (js "img2") 1 None]
           eq_refl eq_refl eq_refl).
Defined.

(** ** The favourites counter *)

(** X20: when the counter element exists, [updateFavoritesCount] shows it
    exactly when there is at least one favourite, and its text is the
    number of favourites in decimal digits; after a [toggleFavorite] on an
    id that was not favourited the counter is shown. *)
Theorem updateFavoritesCount_display (element : Counter) (st : State) :
  ∃ counter,
    updateFavoritesCount (Some element) st = Some counter
    ∧ textContent counter = decimal (N.of_nat (length (favorites st)))
    ∧ Forall is_digit (textContent counter)
    ∧ (display counter = js "block" ↔ favorites st ≠ [])
    ∧ (display counter = js "none" ↔ favorites st = [])
    ∧ ∀ id name price image,
        isFavorited id st = false →
        ∃ counter',
          updateFavoritesCount (Some element)
            (toggleFavorite id name price image st).2 = Some counter'
          ∧ display counter' = js "block".
Proof.
  unfold updateFavoritesCount. eexists. split; [reflexivity |]. simpl.
  split; [reflexivity |]. split; [apply decimal_digits |].
  split; [| split].
  - destruct (favorites st); simpl; [| done].
    split; [discriminate | done].
  - destruct (favorites st); simpl; [done |].
    split; discriminate.
  - intros id name price image Hnot. eexists. split; [reflexivity |]. simpl.
    rewrite (toggleFavorite_add _ _ _ _ _ Hnot), length_app, Nat.add_1_r.
    reflexivity.
Qed.
